(** * modin.experimental.cloud: the RayCluster lifecycle controller

    A shallow embedding of [modin/experimental/cloud/rayscale.py] and of the
    value types of [modin/experimental/cloud/__init__.py].

    Python objects are records, attribute assignment is an explicit state
    update, and a method is a computation in a state-and-exception monad over
    the object and the world it acts on (file system, process environment,
    standard error, the cloud behind the autoscaler).  An exception does not
    roll the state back: a computation returns its outcome together with the
    state reached.

    Code the module imports but does not define is taken as an interface:
    [yaml], [hashlib.sha1], [repr], [shlex.quote], [traceback.format_exc]
    (class [Libraries]) and the three [ray.autoscaler.commands] entry points
    (class [Autoscaler]); the paths of the installation and the constant
    [Provider.AWS] of [cluster.py] are in class [Installation]. *)

From stdpp Require Import gmap strings list fin_maps.
From Stdlib Require Import ZArith Lia.

Local Set Warnings "-register-all".
Local Open Scope Z_scope.
Local Open Scope string_scope.

(** ** Exceptions *)

(** The exception classes the module raises or can meet.  [ClusterError]
    subclasses carry the [cause] keyword of [ClusterError.__init__]. *)
Inductive pyexc : Type :=
| KeyError (key : string)
| TypeError (msg : string)
| ValueError (msg : string)
| RuntimeError (msg : string)
| AssertionError (msg : string)
| AttributeError (msg : string)
| OSError (msg : string)
| YAMLError (msg : string)
| ToolFailure (msg : string)
| CannotSpawnCluster (msg : string) (cause : pyexc)
| CannotDestroyCluster (msg : string) (cause : pyexc).

(** ** Configuration documents *)

(** What [yaml.safe_load] returns for the autoscaler configuration: scalars,
    sequences and mappings.  A mapping is a Python [dict]; it keeps insertion
    order (which [repr] and [yaml.dump] observe), hence an association list.
    Keys are the field names of the configuration schema.

    A document is a tree here.  [yaml.safe_load] gives one [dict] to an
    anchor and all its aliases, and the code updates mappings in place, so
    in a template with aliases a write through one section also shows in the
    sections that share the mapping.  The properties below are stated so
    that they do not depend on the sections being distinct objects: they
    speak of an entry only after the last write that uses its key. *)
Inductive yaml : Type :=
| YNone
| YBool (b : bool)
| YInt (z : Z)
| YStr (s : string)
| YList (items : list yaml)
| YDict (entries : list (string * yaml)).

Definition opt_str (o : option string) : yaml :=
  match o with
  | Some s => YStr s
  | None => YNone
  end.

(** [d[k]] on the entries of a dict. *)
Fixpoint dict_get (entries : list (string * yaml)) (k : string) : option yaml :=
  match entries with
  | [] => None
  | (k', v) :: rest => if String.eqb k' k then Some v else dict_get rest k
  end.

(** [d[k] = v] on the entries of a dict: an existing key keeps its position,
    a new key goes last. *)
Fixpoint dict_set (entries : list (string * yaml)) (k : string) (v : yaml)
  : list (string * yaml) :=
  match entries with
  | [] => [(k, v)]
  | (k', v') :: rest =>
      if String.eqb k' k then (k, v) :: rest else (k', v') :: dict_set rest k v
  end.

(** [obj[k]] with a string key. *)
Definition getitem (obj : yaml) (k : string) : pyexc + yaml :=
  match obj with
  | YDict entries =>
      match dict_get entries k with
      | Some v => inr v
      | None => inl (KeyError k)
      end
  | YList _ => inl (TypeError "list indices must be integers or slices, not str")
  | YStr _ => inl (TypeError "string indices must be integers")
  | _ => inl (TypeError "object is not subscriptable")
  end.

(** [obj[k] = v] with a string key. *)
Definition setitem (obj : yaml) (k : string) (v : yaml) : pyexc + yaml :=
  match obj with
  | YDict entries => inr (YDict (dict_set entries k v))
  | YList _ => inl (TypeError "list indices must be integers or slices, not str")
  | _ => inl (TypeError "object does not support item assignment")
  end.

(** [obj[k1][k2]]. *)
Definition getitem2 (obj : yaml) (k1 k2 : string) : pyexc + yaml :=
  match getitem obj k1 with
  | inl e => inl e
  | inr sub => getitem sub k2
  end.

(** [obj[k1][k2] = v]: the inner object is fetched, updated in place, and
    stays where it was in the outer one.  On a tree no other part of [obj]
    changes (see the note at [yaml] for mappings shared through aliases). *)
Definition setitem2 (obj : yaml) (k1 k2 : string) (v : yaml) : pyexc + yaml :=
  match getitem obj k1 with
  | inl e => inl e
  | inr sub =>
      match setitem sub k2 v with
      | inl e => inl e
      | inr sub' => setitem obj k1 sub'
      end
  end.

(** A document has a section [k] when [obj[k]] is a mapping. *)
Definition has_section (obj : yaml) (k : string) : Prop :=
  exists entries, getitem obj k = inr (YDict entries).

(** A scalar: neither a sequence nor a mapping. *)
Definition is_scalar (v : yaml) : bool :=
  match v with
  | YList _ | YDict _ => false
  | _ => true
  end.

(** Truth value of an [Optional[str]]: [None] and the empty string are false. *)
Definition truthy (o : option string) : bool :=
  match o with
  | Some s => negb (String.eqb s "")
  | None => false
  end.

(** ** The state-and-exception monad *)

Definition M (S A : Type) : Type := S -> (pyexc + A) * S.

Definition ret {S A} (a : A) : M S A := fun s => (inr a, s).
Definition raise {S A} (e : pyexc) : M S A := fun s => (inl e, s).
Definition bind {S A B} (c : M S A) (k : A -> M S B) : M S B :=
  fun s =>
    match c s with
    | (inr a, s') => k a s'
    | (inl e, s') => (inl e, s')
    end.
Definition gets {S A} (f : S -> A) : M S A := fun s => (inr (f s), s).
Definition modify {S} (f : S -> S) : M S unit := fun s => (inr tt, f s).
(** Lift a pure fallible value. *)
Definition lift {S A} (r : pyexc + A) : M S A := fun s => (r, s).
(** [try: c except BaseException as ex: h ex]. *)
Definition try_except {S A} (c : M S A) (h : pyexc -> M S A) : M S A :=
  fun s =>
    match c s with
    | (inr a, s') => (inr a, s')
    | (inl e, s') => h e s'
    end.

Declare Scope py_scope.
Delimit Scope py_scope with py.
Notation "x <- c ;; k" := (bind c (fun x => k))
  (at level 100, c at next level, right associativity) : py_scope.
Notation "c ;;; k" := (bind c (fun _ => k))
  (at level 100, right associativity) : py_scope.
Local Open Scope py_scope.

(** ** The world outside the object *)

(** A call made through the provisioning gateway. *)
Inductive GatewayCall : Type :=
| CreateOrUpdate (path : string)
| Teardown (path : string)
| HeadNodeIp (path : string).

(** [files] maps the path of a regular file to its text; [dirs] holds the
    directories the module knows of, each with the mode it was asked for (the
    parents [os.makedirs] creates on the way and the process umask are not
    recorded); [environ] is [os.environ]; [stderr] lists what
    was written to [sys.stderr], oldest first; [cloud] is whatever state the
    provisioning tool keeps; [gateway_calls] logs the calls made to it, oldest
    first; [threads_created] counts the [threading.Thread] objects built. *)
Record World (Cloud : Type) : Type := mkWorld {
  files : gmap string string;
  dirs : gmap string Z;
  environ : gmap string string;
  stderr : list string;
  cloud : Cloud;
  gateway_calls : list GatewayCall;
  threads_created : nat
}.
Arguments mkWorld {Cloud}.
Arguments files {Cloud}.
Arguments dirs {Cloud}.
Arguments environ {Cloud}.
Arguments stderr {Cloud}.
Arguments cloud {Cloud}.
Arguments gateway_calls {Cloud}.
Arguments threads_created {Cloud}.

(** Library functions the module calls. *)
Class Libraries : Type := {
  yaml_safe_load : string -> pyexc + yaml;
  yaml_dump : yaml -> string;
  repr : yaml -> string;
  sha1_hexdigest : string -> string;
  quote : string -> string;
  format_exc : pyexc -> string
}.

(** [ray.autoscaler.commands]: each entry point takes the path of the config
    file, sees the files and the cloud, and may change both; the first two
    return nothing or raise. *)
Class Autoscaler (Cloud : Type) : Type := {
  create_or_update_cluster :
    string -> gmap string string -> Cloud ->
    option pyexc * gmap string string * Cloud;
  teardown_cluster :
    string -> gmap string string -> Cloud ->
    option pyexc * gmap string string * Cloud;
  get_head_node_ip :
    string -> gmap string string -> Cloud -> pyexc + string
}.

(** Where the package is installed and what [cluster.py] defines:
    [base_config] is the path of the packaged [ray-autoscaler.yml],
    [cfgdir] is [os.path.abspath(os.path.expanduser("~/.modin/cloud"))],
    [Provider_AWS] is the constant [Provider.AWS]. *)
Class Installation : Type := {
  __base_config : string;
  cfgdir : string;
  Provider_AWS : string
}.

(** ** Value types *)

(** [cluster.Provider], as far as this module reads it. *)
Record Provider : Type := mkProvider {
  name : string;
  credentials_file : option string;
  region : option string;
  zone : option string
}.

(** The attributes of the object that the methods of [RayCluster] read
    ([self.provider], [self.cluster_name], ...).  They are set by the base
    class [Cluster] of [cluster.py]. *)
Record ClusterSpec : Type := mkClusterSpec {
  provider : Provider;
  project_name : option string;
  cluster_name : string;
  worker_count : Z;
  head_node_type : option string;
  worker_node_type : option string
}.

(** [ConnectionDetails] of [__init__.py]; [port] defaults to 22. *)
Record ConnectionDetails : Type := mkConnectionDetails {
  user_name : yaml;
  key_file : yaml;
  address : string;
  port : Z
}.

Definition ConnectionDetails_new (user key : yaml) (addr : string)
  : ConnectionDetails :=
  mkConnectionDetails user key addr 22.

(** ** threading.Thread *)

Inductive ThreadStatus : Type := Initial | Started | Stopped.

(** The two callables ever given to a thread: the bound methods
    [self.__spawn] and [self.__destroy]. *)
Inductive Target : Type := target_spawn | target_destroy.

Record Thread : Type := mkThread {
  ident : nat;
  thread_target : Target;
  status : ThreadStatus
}.

(** ** _ThreadTask *)

Record _ThreadTask : Type := mkThreadTask {
  target : Target;
  thread : option Thread;
  exc : option pyexc;
  silent : bool
}.

(** [_ThreadTask.__init__]. *)
Definition _ThreadTask_init (tgt : Target) : _ThreadTask :=
  mkThreadTask tgt None None false.

(** ** RayCluster *)

(** [spawn_exc] and [destroy_exc] are attributes that exist only once a
    background body has assigned them: [None] is an absent attribute. *)
Record RayCluster : Type := mkRayCluster {
  spawner : _ThreadTask;
  destroyer : _ThreadTask;
  ready : bool;
  spec : ClusterSpec;
  config : yaml;
  config_file : string;
  spawn_exc : option pyexc;
  destroy_exc : option pyexc
}.

Definition set_spawner (t : _ThreadTask) (c : RayCluster) : RayCluster :=
  mkRayCluster t (destroyer c) (ready c) (spec c) (config c) (config_file c)
    (spawn_exc c) (destroy_exc c).
Definition set_destroyer (t : _ThreadTask) (c : RayCluster) : RayCluster :=
  mkRayCluster (spawner c) t (ready c) (spec c) (config c) (config_file c)
    (spawn_exc c) (destroy_exc c).
Definition set_ready (b : bool) (c : RayCluster) : RayCluster :=
  mkRayCluster (spawner c) (destroyer c) b (spec c) (config c) (config_file c)
    (spawn_exc c) (destroy_exc c).
Definition set_config (y : yaml) (c : RayCluster) : RayCluster :=
  mkRayCluster (spawner c) (destroyer c) (ready c) (spec c) y (config_file c)
    (spawn_exc c) (destroy_exc c).
Definition set_spawn_exc (e : pyexc) (c : RayCluster) : RayCluster :=
  mkRayCluster (spawner c) (destroyer c) (ready c) (spec c) (config c)
    (config_file c) (Some e) (destroy_exc c).
Definition set_destroy_exc (e : pyexc) (c : RayCluster) : RayCluster :=
  mkRayCluster (spawner c) (destroyer c) (ready c) (spec c) (config c)
    (config_file c) (spawn_exc c) (Some e).

Definition set_thread (t : option Thread) (k : _ThreadTask) : _ThreadTask :=
  mkThreadTask (target k) t (exc k) (silent k).
Definition set_exc (e : option pyexc) (k : _ThreadTask) : _ThreadTask :=
  mkThreadTask (target k) (thread k) e (silent k).
Definition set_silent (b : bool) (k : _ThreadTask) : _ThreadTask :=
  mkThreadTask (target k) (thread k) (exc k) b.

(** A reference to one of the two task objects of a cluster. *)
Inductive TaskRef : Type := ref_spawner | ref_destroyer.

Definition get_task (r : TaskRef) (c : RayCluster) : _ThreadTask :=
  match r with
  | ref_spawner => spawner c
  | ref_destroyer => destroyer c
  end.
Definition set_task (r : TaskRef) (k : _ThreadTask) (c : RayCluster) : RayCluster :=
  match r with
  | ref_spawner => set_spawner k c
  | ref_destroyer => set_destroyer k c
  end.

Definition nl : string := String (Ascii.ascii_of_nat 10) EmptyString.

Section RayScale.
Context {Cloud : Type}.
Context `{!Libraries} `{!Autoscaler Cloud} `{!Installation}.

Abbreviation W := (World Cloud).
Abbreviation ST := (RayCluster * World Cloud)%type.

Definition set_files (f : gmap string string) (w : W) : W :=
  mkWorld f (dirs w) (environ w) (stderr w) (cloud w) (gateway_calls w)
    (threads_created w).
Definition set_dirs (d : gmap string Z) (w : W) : W :=
  mkWorld (files w) d (environ w) (stderr w) (cloud w) (gateway_calls w)
    (threads_created w).
Definition set_environ (e : gmap string string) (w : W) : W :=
  mkWorld (files w) (dirs w) e (stderr w) (cloud w) (gateway_calls w)
    (threads_created w).
Definition set_stderr (l : list string) (w : W) : W :=
  mkWorld (files w) (dirs w) (environ w) l (cloud w) (gateway_calls w)
    (threads_created w).

(** Run a computation on the world, or on the object, inside a method. *)
Definition in_world {A} (c : M W A) : M ST A :=
  fun s => let '(r, w') := c (snd s) in (r, (fst s, w')).
Definition self {A} (f : RayCluster -> A) : M ST A := gets (fun s => f (fst s)).
Definition modify_self (f : RayCluster -> RayCluster) : M ST unit :=
  modify (fun s => (f (fst s), snd s)).

(** *** os, sys *)

Definition os_path_join (dir file : string) : string := dir ++ "/" ++ file.

Definition os_path_exists (path : string) (w : W) : bool :=
  bool_decide (is_Some (files w !! path)) || bool_decide (is_Some (dirs w !! path)).

(** [os.makedirs(path, mode=0o700, exist_ok=True)], as far as [path] itself
    goes: it must not be a regular file, and it is a directory afterwards,
    recorded with the mode asked for if it was not there. *)
Definition os_makedirs (path : string) : M W unit :=
  fun w =>
    match files w !! path, dirs w !! path with
    | Some _, _ => (inl (OSError "File exists"), w)
    | None, Some _ => (inr tt, w)
    | None, None => (inr tt, set_dirs (<[path := 448]> (dirs w)) w)
    end.

(** [open(path).read()]. *)
Definition read_file (path : string) : M W string :=
  fun w =>
    match files w !! path with
    | Some text => (inr text, w)
    | None => (inl (OSError "No such file or directory"), w)
    end.

(** [open(path, "w").write(text)]. *)
Definition write_file (path text : string) : M W unit :=
  fun w =>
    match dirs w !! path with
    | Some _ => (inl (OSError "Is a directory"), w)
    | None => (inr tt, set_files (<[path := text]> (files w)) w)
    end.

Definition stderr_write (text : string) : M W unit :=
  modify (fun w => set_stderr (stderr w ++ [text]) w).

(** *** The provisioning gateway *)

Definition tool_call (c : GatewayCall)
    (r : option pyexc * gmap string string * Cloud) (w : W)
  : (pyexc + unit) * W :=
  let '(res, f', c') := r in
  let w' := mkWorld f' (dirs w) (environ w) (stderr w) c'
              (gateway_calls w ++ [c]) (threads_created w) in
  match res with
  | None => (inr tt, w')
  | Some e => (inl e, w')
  end.

Definition call_create_or_update (path : string) : M W unit :=
  fun w =>
    tool_call (CreateOrUpdate path)
      (create_or_update_cluster path (files w) (cloud w)) w.

Definition call_teardown (path : string) : M W unit :=
  fun w =>
    tool_call (Teardown path) (teardown_cluster path (files w) (cloud w)) w.

Definition call_get_head_node_ip (path : string) : M W string :=
  fun w =>
    (get_head_node_ip path (files w) (cloud w),
     mkWorld (files w) (dirs w) (environ w) (stderr w) (cloud w)
       (gateway_calls w ++ [HeadNodeIp path]) (threads_created w)).

(** *** RayCluster: class attributes *)

(** [__instance_key] and [__credentials_env]. *)
Definition __instance_key : gmap string string :=
  {[ Provider_AWS := "InstanceType" ]}.
Definition __credentials_env : gmap string string :=
  {[ Provider_AWS := "AWS_CONFIG_FILE" ]}.

(** The error both lookups raise for a provider without an entry. *)
Definition UnsupportedProviderError (provider_name : string) : pyexc :=
  ValueError ("Unsupported provider: " ++ provider_name).

(** [try: table[name] except KeyError: raise ValueError(...)], as written in
    [__init__] for [__credentials_env] ... *)
Definition lookup_credentials_env (provider_name : string) : pyexc + string :=
  match __credentials_env !! provider_name with
  | Some key => inr key
  | None => inl (ValueError ("Unsupported provider: " ++ provider_name))
  end.

(** ... and in [__make_config] for [__instance_key]. *)
Definition lookup_instance_key (provider_name : string) : pyexc + string :=
  match __instance_key !! provider_name with
  | Some key => inr key
  | None => inl (ValueError ("Unsupported provider: " ++ provider_name))
  end.

(** *** RayCluster.__make_config *)

Definition __make_config (sp : ClusterSpec) : M W yaml :=
  text <- read_file __base_config ;;
  config <- lift (yaml_safe_load text) ;;
  (* cluster and provider details *)
  config <- lift (setitem config "cluster_name" (YStr (cluster_name sp))) ;;
  config <- lift (setitem config "min_workers" (YInt (worker_count sp))) ;;
  config <- lift (setitem config "max_workers" (YInt (worker_count sp))) ;;
  config <- lift (setitem config "initial_workers" (YInt (worker_count sp))) ;;
  config <- lift (setitem2 config "provider" "type"
                    (YStr (name (provider sp)))) ;;
  config <- (if truthy (region (provider sp))
             then lift (setitem2 config "provider" "region"
                          (opt_str (region (provider sp))))
             else ret config) ;;
  config <- (if truthy (zone (provider sp))
             then lift (setitem2 config "provider" "zone"
                          (opt_str (zone (provider sp))))
             else ret config) ;;
  (* connection details *)
  socks_proxy <- gets (fun w : W => environ w !! "MODIN_SOCKS_PROXY") ;;
  config <- lift (setitem2 config "auth" "ssh_user" (YStr "modin")) ;;
  config <- (match socks_proxy with
             | Some proxy =>
                 if truthy socks_proxy
                 then lift (setitem2 config "auth" "ssh_proxy_command"
                              (YStr ("nc -x " ++ quote proxy ++ " %h %p")))
                 else ret config
             | None => ret config
             end) ;;
  (* instance types *)
  instance_key <- lift (lookup_instance_key (name (provider sp))) ;;
  config <- lift (setitem2 config "head_node" instance_key
                    (opt_str (head_node_type sp))) ;;
  config <- lift (setitem2 config "worker_nodes" instance_key
                    (opt_str (worker_node_type sp))) ;;
  ret config.

(** *** RayCluster.__save_config *)

Definition config_entry (prefix : string) : string :=
  os_path_join cfgdir ("config-" ++ prefix ++ ".yml").

(** The [for stop in ...: ... break ... else: ...] loop over the stops still
    to try: the first prefix whose entry does not exist, else the full hash. *)
Fixpoint find_entry (w : W) (namehash : string) (stops : list nat) : string :=
  match stops with
  | [] => config_entry namehash
  | stop :: rest =>
      let entry := config_entry (String.substring 0 stop namehash) in
      if negb (os_path_exists entry w) then entry
      else find_entry w namehash rest
  end.

(** [range(4, len(namehash))]. *)
Definition stops_of (namehash : string) : list nat :=
  seq 4 (String.length namehash - 4).

Definition __save_config (cfg : yaml) : M W string :=
  os_makedirs cfgdir ;;;
  let namehash := sha1_hexdigest (repr cfg) in
  entry <- gets (fun w => find_entry w namehash (stops_of namehash)) ;;
  write_file entry (yaml_dump cfg) ;;;
  ret entry.

(** *** RayCluster.__init__ *)

(** [__init__] first sets [spawner], [destroyer] and [ready], then calls the
    base class (with the object passed twice), and only then looks up the
    credentials variable and builds and saves the config.  What the base
    class does with its arguments is not in this module, so the constructor
    as a whole is not embedded; its own statements are: [_ThreadTask_init],
    [lookup_credentials_env], [__make_config], [__save_config]. *)

(** An object as the assignments of [__init__] leave it: two new tasks, not
    ready, no captured error, with the given attributes, config and config
    file. *)
Definition constructed (sp : ClusterSpec) (cfg : yaml) (path : string)
  : RayCluster :=
  mkRayCluster (_ThreadTask_init target_spawn) (_ThreadTask_init target_destroy)
    false sp cfg path None None.

(** The keys [__make_config] assigns to, in some mapping or other, and the
    four sections it writes into. *)
Definition written_keys : list string :=
  ["cluster_name"; "min_workers"; "max_workers"; "initial_workers";
   "type"; "region"; "zone"; "ssh_user"; "ssh_proxy_command"; "InstanceType"].
Definition section_keys : list string :=
  ["provider"; "auth"; "head_node"; "worker_nodes"].

(** The packaged template is readable and parses to [tpl]. *)
Definition loads_template (w : W) (tpl : yaml) : Prop :=
  exists text, files w !! __base_config = Some text /\
               yaml_safe_load text = inr tpl.

(** *** RayCluster.__spawn and RayCluster.__destroy *)

Definition __spawn : M ST unit :=
  try_except
    (path <- self config_file ;;
     in_world (call_create_or_update path) ;;;
     (* need to re-load the config, as create_or_update_cluster() modifies it *)
     text <- in_world (read_file path) ;;
     cfg <- lift (yaml_safe_load text) ;;
     modify_self (set_config cfg) ;;;
     modify_self (set_ready true))
    (fun ex =>
       modify_self (set_spawn_exc (CannotSpawnCluster "Cannot spawn cluster" ex)) ;;;
       quiet <- self (fun c => silent (spawner c)) ;;
       if negb quiet
       then in_world (stderr_write
                        ("Cannot spawn cluster:" ++ nl ++ format_exc ex ++ nl))
       else ret tt).

Definition __destroy : M ST unit :=
  try_except
    (path <- self config_file ;;
     in_world (call_teardown path) ;;;
     modify_self (set_ready false) ;;;
     modify_self (set_config YNone))
    (fun ex =>
       modify_self
         (set_destroy_exc (CannotDestroyCluster "Cannot destroy cluster" ex)) ;;;
       quiet <- self (fun c => silent (destroyer c)) ;;
       if negb quiet
       then in_world (stderr_write
                        ("Cannot destroy cluster:" ++ nl ++ format_exc ex ++ nl))
       else ret tt).

Definition run_target (t : Target) : M ST unit :=
  match t with
  | target_spawn => __spawn
  | target_destroy => __destroy
  end.

(** *** threading.Thread *)

(** [threading.Thread(target=tgt)]: a new thread object, not started. *)
Definition Thread_new (tgt : Target) : M ST Thread :=
  fun s =>
    let w := snd s in
    (inr (mkThread (threads_created w) tgt Initial),
     (fst s, mkWorld (files w) (dirs w) (environ w) (stderr w) (cloud w)
               (gateway_calls w) (S (threads_created w)))).

(** [Thread.start()]: only a thread that was never started can be started.
    No method of [RayCluster] calls it. *)
Definition Thread_start (t : Thread) : pyexc + Thread :=
  match status t with
  | Initial => inr (mkThread (ident t) (thread_target t) Started)
  | _ => inl (RuntimeError "threads can only be started once")
  end.

(** What [Thread.join()] raises on a thread that was never started. *)
Definition join_error : pyexc :=
  RuntimeError "cannot join thread before it is started".

(** [Thread.join()]: refuses a thread that was never started; for a started
    one it returns once the target has run to completion (here: the target
    runs at the join, one of the admissible schedules). *)
Definition Thread_join (t : Thread) : M ST Thread :=
  match status t with
  | Initial => raise join_error
  | Started =>
      run_target (thread_target t) ;;;
      ret (mkThread (ident t) (thread_target t) Stopped)
  | Stopped => ret t
  end.

(** *** RayCluster.__run_thread, spawn, destroy *)

Definition modify_task (r : TaskRef) (f : _ThreadTask -> _ThreadTask) : M ST unit :=
  modify_self (fun c => set_task r (f (get_task r c)) c).

Definition __run_thread (wait : bool) (task : TaskRef) : M ST unit :=
  th <- self (fun c => thread (get_task task c)) ;;
  (match th with
   | Some _ => ret tt
   | None =>
       tgt <- self (fun c => target (get_task task c)) ;;
       t <- Thread_new tgt ;;
       modify_task task (set_thread (Some t))
   end) ;;;
  if wait then
    modify_task task (set_silent true) ;;;
    th <- self (fun c => thread (get_task task c)) ;;
    match th with
    | None => raise (AttributeError "'NoneType' object has no attribute 'join'")
    | Some t =>
        t' <- Thread_join t ;;
        modify_task task (set_thread (Some t')) ;;;
        e <- self (fun c => exc (get_task task c)) ;;
        modify_task task (set_exc None) ;;;
        match e with
        | Some ex => raise ex
        | None => ret tt
        end
    end
  else ret tt.

Definition spawn (wait : bool) : M ST unit := __run_thread wait ref_spawner.
Definition destroy (wait : bool) : M ST unit := __run_thread wait ref_destroyer.

(** *** RayCluster._get_connection_details, _get_main_python *)

(** What the failed [assert self.ready, ...] raises. *)
Definition not_ready_error : pyexc :=
  AssertionError "Cluster is not ready, cannot get connection details".

Definition _get_connection_details : M ST ConnectionDetails :=
  is_ready <- self ready ;;
  if negb is_ready
  then raise not_ready_error
  else
    cfg <- self config ;;
    user <- lift (getitem2 cfg "auth" "ssh_user") ;;
    key <- lift (getitem2 cfg "auth" "ssh_private_key") ;;
    path <- self config_file ;;
    addr <- in_world (call_get_head_node_ip path) ;;
    ret (ConnectionDetails_new user key addr).

Definition _get_main_python : string := "~/miniconda/envs/modin/bin/python".

(** A task whose thread, if it has one, was never started. *)
Definition unstarted (k : _ThreadTask) : Prop :=
  match thread k with
  | None => True
  | Some t => status t = Initial
  end.

(** An object that is not ready and whose two threads were never started. *)
Definition dormant (c : RayCluster) : Prop :=
  ready c = false /\ unstarted (spawner c) /\ unstarted (destroyer c).

(** *** Callers *)

(** A call on the public surface of the object. *)
Inductive Op : Type :=
| OpSpawn (wait : bool)
| OpDestroy (wait : bool)
| OpConnectionDetails.

Definition run_op (o : Op) : M ST unit :=
  match o with
  | OpSpawn wait => spawn wait
  | OpDestroy wait => destroy wait
  | OpConnectionDetails => _get_connection_details ;;; ret tt
  end.

(** What a public call answers on a dormant object. *)
Definition dormant_answer (o : Op) : pyexc + unit :=
  match o with
  | OpSpawn true | OpDestroy true => inl join_error
  | OpSpawn false | OpDestroy false => inr tt
  | OpConnectionDetails => inl not_ready_error
  end.

(** A caller that makes the calls in turn and goes on after an exception. *)
Fixpoint run_ops (ops : list Op) (s : ST) : ST :=
  match ops with
  | [] => s
  | o :: rest => run_ops rest (snd (run_op o s))
  end.

(** What can happen to the object: a public call, or a background body
    running (as it would on a started thread). *)
Inductive Event : Type :=
| Call (o : Op)
| Run (t : Target).

Definition run_event (ev : Event) : M ST unit :=
  match ev with
  | Call o => run_op o
  | Run t => run_target t
  end.

Fixpoint run_events (evs : list Event) (s : ST) : ST :=
  match evs with
  | [] => s
  | ev :: rest => run_events rest (snd (run_event ev s))
  end.

(** How many of the two tasks have no thread object yet. *)
Definition pending (c : RayCluster) : nat :=
  match thread (spawner c) with Some _ => 0 | None => 1 end
  + match thread (destroyer c) with Some _ => 0 | None => 1 end.

(** The body a task was given at construction. *)
Definition body_of (r : TaskRef) : Target :=
  match r with
  | ref_spawner => target_spawn
  | ref_destroyer => target_destroy
  end.

(** What one step keeps about the tasks: a thread object stays the same
    object, a thread is made only for a task that had none, and [silent] is
    not cleared. *)
Definition tasks_kept (c : RayCluster) (w : W) (c' : RayCluster) (w' : W)
  : Prop :=
  (threads_created w' + pending c' = threads_created w + pending c)%nat /\
  (forall r t, thread (get_task r c) = Some t ->
     exists t', thread (get_task r c') = Some t' /\ ident t' = ident t /\
                thread_target t' = thread_target t) /\
  (forall r, silent (get_task r c) = true -> silent (get_task r c') = true).

(** The text a body writes to the error stream for the exception [e]. *)
Definition report (what : string) (e : pyexc) : string :=
  what ++ nl ++ format_exc e ++ nl.

End RayScale.

(** ** A concrete installation *)

Module Demo.

Definition template : yaml :=
  YDict [("cluster_name", YStr "default");
         ("min_workers", YInt 0);
         ("max_workers", YInt 0);
         ("initial_workers", YInt 0);
         ("provider", YDict [("type", YStr "aws"); ("region", YStr "us-west-1")]);
         ("auth", YDict [("ssh_user", YStr "ubuntu");
                         ("ssh_private_key", YStr "~/.ssh/modin.pem")]);
         ("head_node", YDict [("ImageId", YStr "ami-0")]);
         ("worker_nodes", YDict [("ImageId", YStr "ami-0")])].

Definition libraries : Libraries := {|
  yaml_safe_load := fun _ => inr template;
  yaml_dump := fun _ => "cluster_name: modin-cluster";
  repr := fun _ => "{'cluster_name': 'modin-cluster'}";
  sha1_hexdigest := fun _ => "f87d10f193d52e3274fda5fa4a5800d0455a6719";
  quote := fun s => s;
  format_exc := fun _ => "Traceback (most recent call last)"
|}.

(** A provisioning tool that always succeeds, and one that always fails. *)
Definition healthy_tool : Autoscaler unit := {|
  create_or_update_cluster := fun _ f c => (None, f, c);
  teardown_cluster := fun _ f c => (None, f, c);
  get_head_node_ip := fun _ _ _ => inr "10.0.0.1"
|}.

Definition broken_tool : Autoscaler unit := {|
  create_or_update_cluster := fun _ f c => (Some (ToolFailure "no quota"), f, c);
  teardown_cluster := fun _ f c => (Some (ToolFailure "no quota"), f, c);
  get_head_node_ip := fun _ _ _ => inl (ToolFailure "no head node")
|}.

Definition installation : Installation := {|
  __base_config := "/site-packages/modin/experimental/cloud/ray-autoscaler.yml";
  cfgdir := "/home/modin/.modin/cloud";
  Provider_AWS := "aws"
|}.

Definition world : World unit :=
  mkWorld {[ "/site-packages/modin/experimental/cloud/ray-autoscaler.yml"
             := "cluster_name: default" ]}
    ∅ ∅ [] tt [] 0.

Definition aws : Provider := mkProvider "aws" None None None.
Definition gcp : Provider := mkProvider "gcp" (Some "/home/modin/gcp.json") None None.

Definition aws_spec : ClusterSpec :=
  mkClusterSpec aws None "modin-cluster" 4 (Some "m5.large") (Some "m5.large").
Definition gcp_spec : ClusterSpec :=
  mkClusterSpec gcp None "modin-cluster" 4 None None.

(** The document built for [aws_spec], and an object that holds it. *)
Definition aws_config : yaml :=
  YDict [("cluster_name", YStr "modin-cluster");
         ("min_workers", YInt 4);
         ("max_workers", YInt 4);
         ("initial_workers", YInt 4);
         ("provider", YDict [("type", YStr "aws"); ("region", YStr "us-west-1")]);
         ("auth", YDict [("ssh_user", YStr "modin");
                         ("ssh_private_key", YStr "~/.ssh/modin.pem")]);
         ("head_node", YDict [("ImageId", YStr "ami-0");
                              ("InstanceType", YStr "m5.large")]);
         ("worker_nodes", YDict [("ImageId", YStr "ami-0");
                                 ("InstanceType", YStr "m5.large")])].

Definition cluster : RayCluster :=
  constructed aws_spec aws_config "/home/modin/.modin/cloud/config-f87d.yml".

(** A specification with region, zone and credentials, and a world with a
    SOCKS proxy in the environment. *)
Definition aws_west : Provider :=
  mkProvider "aws" (Some "/home/modin/.aws/config") (Some "us-west-2")
    (Some "us-west-2a").
Definition aws_west_spec : ClusterSpec :=
  mkClusterSpec aws_west (Some "taxi") "taxi-cluster" 8 (Some "m5.xlarge") None.
Definition proxy_world : World unit :=
  mkWorld {[ "/site-packages/modin/experimental/cloud/ray-autoscaler.yml"
             := "cluster_name: default" ]}
    ∅ {[ "MODIN_SOCKS_PROXY" := "localhost:1080" ]} [] tt [] 0.

(** The document built for [aws_west_spec] in [proxy_world]. *)
Definition west_config : yaml :=
  YDict [("cluster_name", YStr "taxi-cluster");
         ("min_workers", YInt 8);
         ("max_workers", YInt 8);
         ("initial_workers", YInt 8);
         ("provider", YDict [("type", YStr "aws"); ("region", YStr "us-west-2");
                             ("zone", YStr "us-west-2a")]);
         ("auth", YDict [("ssh_user", YStr "modin");
                         ("ssh_private_key", YStr "~/.ssh/modin.pem");
                         ("ssh_proxy_command",
                          YStr "nc -x localhost:1080 %h %p")]);
         ("head_node", YDict [("ImageId", YStr "ami-0");
                              ("InstanceType", YStr "m5.xlarge")]);
         ("worker_nodes", YDict [("ImageId", YStr "ami-0");
                                 ("InstanceType", YNone)])].

(** Libraries whose YAML loader yields a document without sections. *)
Definition bare_libraries : Libraries := {|
  yaml_safe_load := fun _ => inr (YDict [("cluster_name", YStr "default")]);
  yaml_dump := fun _ => "cluster_name: modin-cluster";
  repr := fun _ => "{'cluster_name': 'modin-cluster'}";
  sha1_hexdigest := fun _ => "f87d10f193d52e3274fda5fa4a5800d0455a6719";
  quote := fun s => s;
  format_exc := fun _ => "Traceback (most recent call last)"
|}.

(** [__save_config] in this installation. *)
Definition persist : yaml -> World unit -> (pyexc + string) * World unit :=
  @__save_config unit libraries installation.

(** The world once the config of [cluster] has been saved. *)
Definition saved_world : World unit := snd (persist aws_config world).

End Demo.

(** * Properties *)

(** *** Facts about item access *)

Lemma dict_get_set_eq entries k v : dict_get (dict_set entries k v) k = Some v.
Proof.
  induction entries as [|[k' v'] rest IH]; simpl.
  - by rewrite String.eqb_refl.
  - destruct (String.eqb k' k) eqn:E; simpl.
    + by rewrite String.eqb_refl.
    + by rewrite E.
Qed.

Lemma dict_get_set_ne entries k k' v :
  k <> k' -> dict_get (dict_set entries k v) k' = dict_get entries k'.
Proof.
  intros Hne. induction entries as [|[k0 v0] rest IH]; simpl.
  - destruct (String.eqb k k') eqn:E; [|done].
    apply String.eqb_eq in E. contradiction.
  - destruct (String.eqb k0 k) eqn:E; simpl.
    + apply String.eqb_eq in E. subst k0.
      destruct (String.eqb k k') eqn:E'; [|done].
      apply String.eqb_eq in E'. contradiction.
    + by rewrite IH.
Qed.

Lemma setitem_inr obj k v obj' :
  setitem obj k v = inr obj' ->
  exists entries, obj = YDict entries /\ obj' = YDict (dict_set entries k v).
Proof. destruct obj; simpl; intros H; try discriminate. inversion H. eauto. Qed.

Lemma getitem_setitem_eq obj k v obj' :
  setitem obj k v = inr obj' -> getitem obj' k = inr v.
Proof.
  intros (entries & -> & ->)%setitem_inr. simpl. by rewrite dict_get_set_eq.
Qed.

Lemma getitem_setitem_ne obj k k' v obj' :
  setitem obj k v = inr obj' -> k <> k' -> getitem obj' k' = getitem obj k'.
Proof.
  intros (entries & -> & ->)%setitem_inr Hne. simpl.
  by rewrite dict_get_set_ne.
Qed.

Lemma setitem2_inr obj k1 k2 v obj' :
  setitem2 obj k1 k2 v = inr obj' ->
  exists sub sub', getitem obj k1 = inr sub /\ setitem sub k2 v = inr sub' /\
                   setitem obj k1 sub' = inr obj'.
Proof.
  unfold setitem2. destruct (getitem obj k1) as [e|sub]; [discriminate|].
  destruct (setitem sub k2 v) as [e|sub'] eqn:E; [discriminate|]. eauto.
Qed.

Lemma getitem2_setitem2_eq obj k1 k2 v obj' :
  setitem2 obj k1 k2 v = inr obj' -> getitem2 obj' k1 k2 = inr v.
Proof.
  intros (sub & sub' & _ & Hs & Ho)%setitem2_inr. unfold getitem2.
  rewrite (getitem_setitem_eq _ _ _ _ Ho). by eapply getitem_setitem_eq.
Qed.

Lemma getitem_setitem2_ne obj k1 k2 v obj' k :
  setitem2 obj k1 k2 v = inr obj' -> k1 <> k -> getitem obj' k = getitem obj k.
Proof.
  intros (sub & sub' & _ & _ & Ho)%setitem2_inr Hne.
  by eapply getitem_setitem_ne.
Qed.

Lemma getitem2_setitem2_ne obj k1 k2 v obj' j1 j2 :
  setitem2 obj k1 k2 v = inr obj' -> k1 <> j1 \/ k2 <> j2 ->
  getitem2 obj' j1 j2 = getitem2 obj j1 j2.
Proof.
  intros (sub & sub' & Hg & Hs & Ho)%setitem2_inr Hne. unfold getitem2.
  destruct (String.string_dec k1 j1) as [<-|Hk1].
  - rewrite (getitem_setitem_eq _ _ _ _ Ho), Hg.
    destruct Hne as [?|Hk2]; [done|]. by eapply getitem_setitem_ne.
  - by rewrite (getitem_setitem_ne _ _ _ _ _ Ho Hk1).
Qed.

Lemma getitem2_setitem_ne obj k v obj' j1 j2 :
  setitem obj k v = inr obj' -> k <> j1 -> getitem2 obj' j1 j2 = getitem2 obj j1 j2.
Proof.
  intros Ho Hne. unfold getitem2. by rewrite (getitem_setitem_ne _ _ _ _ _ Ho Hne).
Qed.

Lemma setitem_section obj k v k' :
  has_section obj k' -> k <> k' ->
  exists obj', setitem obj k v = inr obj' /\ has_section obj' k'.
Proof.
  intros [entries Hg] Hne. destruct obj; try discriminate.
  eexists. split; [reflexivity|]. exists entries.
  rewrite <- Hg. by eapply getitem_setitem_ne.
Qed.

Lemma setitem2_section obj k1 k2 v :
  has_section obj k1 ->
  exists obj', setitem2 obj k1 k2 v = inr obj'.
Proof.
  intros [entries Hg]. unfold setitem2. rewrite Hg. simpl.
  destruct obj; try discriminate. simpl. eauto.
Qed.

Lemma setitem2_keeps_section obj k1 k2 v obj' k :
  setitem2 obj k1 k2 v = inr obj' -> has_section obj k -> has_section obj' k.
Proof.
  intros H [entries Hg].
  destruct (String.string_dec k1 k) as [<-|Hk].
  - destruct (setitem2_inr _ _ _ _ _ H) as (sub & sub' & Hg' & Hs & Ho).
    rewrite Hg in Hg'. inversion Hg'; subst sub. simpl in Hs. inversion Hs; subst sub'.
    eexists. by eapply getitem_setitem_eq.
  - exists entries. rewrite <- Hg. by eapply getitem_setitem2_ne.
Qed.


Lemma setitem_keeps_section obj k v obj' k' :
  setitem obj k v = inr obj' -> k <> k' -> has_section obj k' -> has_section obj' k'.
Proof.
  intros H Hne [entries Hg]. exists entries. rewrite <- Hg.
  by eapply getitem_setitem_ne.
Qed.

Lemma section_setitem obj k v k' :
  has_section obj k' -> exists obj', setitem obj k v = inr obj'.
Proof. intros [entries Hg]. destruct obj; try discriminate. simpl. eauto. Qed.

(** *** Facts about the monad *)

Lemma bind_inr {S A B} (c : M S A) (k : A -> M S B) s b s' :
  bind c k s = (inr b, s') ->
  exists a s1, c s = (inr a, s1) /\ k a s1 = (inr b, s').
Proof.
  unfold bind. destruct (c s) as [[e|a] s1]; [discriminate|]. eauto.
Qed.

Lemma bind_ok {S A B} (c : M S A) (k : A -> M S B) s a s1 :
  c s = (inr a, s1) -> bind c k s = k a s1.
Proof. unfold bind. by intros ->. Qed.

Lemma bind_fail {S A B} (c : M S A) (k : A -> M S B) s e s1 :
  c s = (inl e, s1) -> bind c k s = (inl e, s1).
Proof. unfold bind. by intros ->. Qed.

Lemma lift_bind {S A B} (r : pyexc + A) (k : A -> M S B) s a :
  r = inr a -> bind (lift r) k s = k a s.
Proof. by intros ->. Qed.

Lemma lift_bind_fail {S A B} (r : pyexc + A) (k : A -> M S B) s e :
  r = inl e -> bind (lift r) k s = (inl e, s).
Proof. by intros ->. Qed.

Lemma lift_inr {S A} (r : pyexc + A) (s s' : S) a :
  lift r s = (inr a, s') -> r = inr a /\ s' = s.
Proof. unfold lift. by inversion 1. Qed.

Tactic Notation "inv_bind" hyp(H) "as" ident(a) ident(s1) ident(H1) :=
  let H2 := fresh in
  apply bind_inr in H; destruct H as (a & s1 & H1 & H2); rename H2 into H.

(** A [bind] whose first computation is a [lift]. *)
Tactic Notation "inv_lift" hyp(H) "as" ident(a) ident(H1) :=
  let H2 := fresh in
  let s1 := fresh in
  let E := fresh in
  apply bind_inr in H; destruct H as (a & s1 & H1 & H2); rename H2 into H;
  apply lift_inr in H1; destruct H1 as [H1 E]; subst s1.

Section ConfigBuilder.
Context {Cloud : Type}.
Context {libs : Libraries} {inst : Installation}.

Lemma optional_update_inr (b : bool) (obj : yaml) (k1 k2 : string) (v : yaml)
    (w w' : World Cloud) obj' :
  (if b then lift (setitem2 obj k1 k2 v) else ret obj) w = (inr obj', w') ->
  w' = w /\ (if b then setitem2 obj k1 k2 v = inr obj' else obj' = obj).
Proof.
  destruct b.
  - intros H. by apply lift_inr in H as [-> ->].
  - unfold ret. by inversion 1.
Qed.

(** Every document [__make_config] returns: the world is left as it was, the
    three worker counts are the requested one, the provider type is the
    provider's name, and without a region the template's region entry is
    kept. *)
Lemma make_config_result (sp : ClusterSpec) (w w' : World Cloud) tpl cfg :
  loads_template w tpl ->
  __make_config sp w = (inr cfg, w') ->
  w' = w /\
  getitem cfg "min_workers" = inr (YInt (worker_count sp)) /\
  getitem cfg "max_workers" = inr (YInt (worker_count sp)) /\
  getitem cfg "initial_workers" = inr (YInt (worker_count sp)) /\
  getitem2 cfg "provider" "type" = inr (YStr (name (provider sp))) /\
  (truthy (region (provider sp)) = false ->
   getitem2 cfg "provider" "region" = getitem2 tpl "provider" "region").
Proof.
  intros (text & Hfile & Hload) H. unfold __make_config in H.
  inv_bind H as text' w0 Hread. unfold read_file in Hread. rewrite Hfile in Hread.
  inversion Hread; subst text' w0; clear Hread.
  inv_lift H as c0 Hc0. rewrite Hload in Hc0. inversion Hc0; subst c0; clear Hc0.
  inv_lift H as c1 Hname.
  inv_lift H as c2 Hmin.
  inv_lift H as c3 Hmax.
  inv_lift H as c4 Hini.
  inv_lift H as c5 Htype.
  inv_bind H as c6 w6 Hregion. apply optional_update_inr in Hregion as [-> Hregion].
  inv_bind H as c7 w7 Hzone. apply optional_update_inr in Hzone as [-> Hzone].
  inv_bind H as proxy w8 Hget. unfold gets in Hget. injection Hget as Hp Hw. subst proxy w8.
  inv_lift H as c8 Huser.
  inv_bind H as c9 w9 Hproxy.
  assert (w9 = w /\ forall k, k <> "auth" -> getitem c9 k = getitem c8 k)
    as [-> Hp1].
  { destruct (environ w !! "MODIN_SOCKS_PROXY") as [proxy|].
    - apply optional_update_inr in Hproxy as [-> Hp].
      split; [done|]. intros k Hk. destruct (truthy (Some proxy)); [|by subst].
      eapply getitem_setitem2_ne; [exact Hp|congruence].
    - unfold ret in Hproxy. inversion Hproxy. by split. }
  inv_lift H as ikey Hkey.
  inv_lift H as c10 Hhead.
  inv_lift H as c11 Hwork.
  unfold ret in H. injection H as Hc Hw. subst c11 w'.
  assert (Hz1 : forall k, k <> "provider" -> getitem c7 k = getitem c6 k).
  { intros k Hk. destruct (truthy (zone (provider sp))); [|by subst].
    eapply getitem_setitem2_ne; [exact Hzone|congruence]. }
  assert (Hr1 : forall k, k <> "provider" -> getitem c6 k = getitem c5 k).
  { intros k Hk. destruct (truthy (region (provider sp))); [|by subst].
    eapply getitem_setitem2_ne; [exact Hregion|congruence]. }
  assert (Htop : forall k, k <> "provider" -> k <> "auth" -> k <> "head_node" ->
                           k <> "worker_nodes" -> getitem cfg k = getitem c4 k).
  { intros k ? ? ? ?.
    rewrite (getitem_setitem2_ne _ _ _ _ _ _ Hwork) by congruence.
    rewrite (getitem_setitem2_ne _ _ _ _ _ _ Hhead) by congruence.
    rewrite Hp1 by done.
    rewrite (getitem_setitem2_ne _ _ _ _ _ _ Huser) by congruence.
    rewrite Hz1, Hr1 by done.
    by rewrite (getitem_setitem2_ne _ _ _ _ _ _ Htype) by congruence. }
  assert (Hprov : forall k, getitem2 cfg "provider" k = getitem2 c7 "provider" k).
  { intros k. unfold getitem2.
    rewrite (getitem_setitem2_ne _ _ _ _ _ _ Hwork) by discriminate.
    rewrite (getitem_setitem2_ne _ _ _ _ _ _ Hhead) by discriminate.
    rewrite Hp1 by discriminate.
    by rewrite (getitem_setitem2_ne _ _ _ _ _ _ Huser) by discriminate. }
  split; [done|]. repeat split.
  - rewrite Htop by discriminate.
    rewrite (getitem_setitem_ne _ _ _ _ _ Hini) by discriminate.
    rewrite (getitem_setitem_ne _ _ _ _ _ Hmax) by discriminate.
    by rewrite (getitem_setitem_eq _ _ _ _ Hmin).
  - rewrite Htop by discriminate.
    rewrite (getitem_setitem_ne _ _ _ _ _ Hini) by discriminate.
    by rewrite (getitem_setitem_eq _ _ _ _ Hmax).
  - rewrite Htop by discriminate.
    by rewrite (getitem_setitem_eq _ _ _ _ Hini).
  - rewrite Hprov.
    assert (getitem2 c7 "provider" "type" = getitem2 c6 "provider" "type") as ->.
    { destruct (truthy (zone (provider sp))); [|by subst].
      eapply getitem2_setitem2_ne; [exact Hzone|right; discriminate]. }
    assert (getitem2 c6 "provider" "type" = getitem2 c5 "provider" "type") as ->.
    { destruct (truthy (region (provider sp))); [|by subst].
      eapply getitem2_setitem2_ne; [exact Hregion|right; discriminate]. }
    by eapply getitem2_setitem2_eq.
  - intros Hnoregion. rewrite Hnoregion in Hregion. subst c6.
    rewrite Hprov.
    assert (getitem2 c7 "provider" "region" = getitem2 c5 "provider" "region") as ->.
    { destruct (truthy (zone (provider sp))); [|by subst].
      eapply getitem2_setitem2_ne; [exact Hzone|right; discriminate]. }
    rewrite (getitem2_setitem2_ne _ _ _ _ _ _ _ Htype) by (right; discriminate).
    rewrite (getitem2_setitem_ne _ _ _ _ _ _ Hini) by discriminate.
    rewrite (getitem2_setitem_ne _ _ _ _ _ _ Hmax) by discriminate.
    rewrite (getitem2_setitem_ne _ _ _ _ _ _ Hmin) by discriminate.
    by rewrite (getitem2_setitem_ne _ _ _ _ _ _ Hname) by discriminate.
Qed.

(** With a template that has the [provider] and [auth] sections,
    [__make_config] gets as far as the instance-key lookup without touching
    the world, and other sections of the template are still there. *)
Lemma make_config_prefix (sp : ClusterSpec) (w : World Cloud) tpl :
  loads_template w tpl ->
  has_section tpl "provider" -> has_section tpl "auth" ->
  exists c9,
    (forall k, k <> "cluster_name" -> k <> "min_workers" -> k <> "max_workers" ->
               k <> "initial_workers" -> has_section tpl k -> has_section c9 k) /\
    __make_config sp w =
      (instance_key <- lift (lookup_instance_key (name (provider sp))) ;;
       config <- lift (setitem2 c9 "head_node" instance_key
                         (opt_str (head_node_type sp))) ;;
       config <- lift (setitem2 config "worker_nodes" instance_key
                         (opt_str (worker_node_type sp))) ;;
       ret config) w.
Proof.
  intros (text & Hfile & Hload) Hprov Hauth. unfold __make_config.
  erewrite bind_ok by (unfold read_file; by rewrite Hfile).
  erewrite lift_bind by exact Hload.
  destruct (section_setitem tpl "cluster_name" (YStr (cluster_name sp)) _ Hprov)
    as [c1 E1].
  erewrite lift_bind by exact E1.
  destruct (section_setitem c1 "min_workers" (YInt (worker_count sp)) "provider")
    as [c2 E2]; [by eapply setitem_keeps_section|].
  erewrite lift_bind by exact E2.
  destruct (section_setitem c2 "max_workers" (YInt (worker_count sp)) "provider")
    as [c3 E3]; [by repeat (eapply setitem_keeps_section; [eassumption|done|])|].
  erewrite lift_bind by exact E3.
  destruct (section_setitem c3 "initial_workers" (YInt (worker_count sp)) "provider")
    as [c4 E4]; [by repeat (eapply setitem_keeps_section; [eassumption|done|])|].
  erewrite lift_bind by exact E4.
  assert (S4 : forall k, k <> "cluster_name" -> k <> "min_workers" ->
                         k <> "max_workers" -> k <> "initial_workers" ->
                         has_section tpl k -> has_section c4 k).
  { intros k ? ? ? ? Hk.
    by repeat (eapply setitem_keeps_section; [eassumption|done|]). }
  destruct (setitem2_section c4 "provider" "type" (YStr (name (provider sp))))
    as [c5 E5]; [by apply S4|].
  erewrite lift_bind by exact E5.
  assert (S5 : forall k, has_section c4 k -> has_section c5 k)
    by (intros k; by eapply setitem2_keeps_section).
  assert (exists c6, (forall k, has_section c5 k -> has_section c6 k) /\
            (if truthy (region (provider sp))
             then lift (setitem2 c5 "provider" "region"
                          (opt_str (region (provider sp))))
             else ret c5) w = (inr c6, w)) as (c6 & S6 & E6).
  { destruct (truthy (region (provider sp))); [|by eauto].
    destruct (setitem2_section c5 "provider" "region"
                (opt_str (region (provider sp)))) as [c6 E6];
      [by apply S5, S4|].
    exists c6. split; [intros k; by eapply setitem2_keeps_section|].
    unfold lift. by rewrite E6. }
  erewrite bind_ok by exact E6.
  assert (exists c7, (forall k, has_section c6 k -> has_section c7 k) /\
            (if truthy (zone (provider sp))
             then lift (setitem2 c6 "provider" "zone"
                          (opt_str (zone (provider sp))))
             else ret c6) w = (inr c7, w)) as (c7 & S7 & E7).
  { destruct (truthy (zone (provider sp))); [|by eauto].
    destruct (setitem2_section c6 "provider" "zone"
                (opt_str (zone (provider sp)))) as [c7 E7];
      [by apply S6, S5, S4|].
    exists c7. split; [intros k; by eapply setitem2_keeps_section|].
    unfold lift. by rewrite E7. }
  erewrite bind_ok by exact E7.
  erewrite bind_ok by reflexivity.
  destruct (setitem2_section c7 "auth" "ssh_user" (YStr "modin"))
    as [c8 E8]; [by apply S7, S6, S5, S4|].
  erewrite lift_bind by exact E8.
  assert (S8 : forall k, has_section c7 k -> has_section c8 k)
    by (intros k; by eapply setitem2_keeps_section).
  assert (exists c9, (forall k, has_section c8 k -> has_section c9 k) /\
            match environ w !! "MODIN_SOCKS_PROXY" with
            | Some proxy =>
                if truthy (environ w !! "MODIN_SOCKS_PROXY")
                then lift (setitem2 c8 "auth" "ssh_proxy_command"
                             (YStr ("nc -x " ++ quote proxy ++ " %h %p")))
                else ret c8
            | None => ret c8
            end w = (inr c9, w)) as (c9 & S9 & E9).
  { destruct (environ w !! "MODIN_SOCKS_PROXY") as [proxy|]; [|by eauto].
    destruct (truthy (Some proxy)); [|by eauto].
    destruct (setitem2_section c8 "auth" "ssh_proxy_command"
                (YStr ("nc -x " ++ quote proxy ++ " %h %p"))) as [c9 E9];
      [by apply S8, S7, S6, S5, S4|].
    exists c9. split; [intros k; by eapply setitem2_keeps_section|].
    unfold lift. by rewrite E9. }
  erewrite bind_ok by exact E9.
  exists c9. split; [|done].
  intros k ? ? ? ? Hk. by apply S9, S8, S7, S6, S5, S4.
Qed.

Lemma unknown_provider_no_entry (n : string) :
  __instance_key !! n = None \/ __credentials_env !! n = None ->
  __instance_key !! n = None /\ __credentials_env !! n = None.
Proof.
  unfold __instance_key, __credentials_env.
  intros [H|H]; apply lookup_singleton_None in H;
    split; by apply lookup_singleton_None.
Qed.

(** [__make_config] only reads: whatever its outcome, the world is as before. *)
Lemma make_config_reads_only (sp : ClusterSpec) (w : World Cloud) :
  snd (__make_config sp w) = w.
Proof.
  unfold __make_config, bind, lift, read_file, gets, ret.
  repeat case_match; simplify_eq/=; done.
Qed.

(** Without an instance-key entry [__make_config] cannot return a document,
    whatever the template holds. *)
Lemma make_config_unknown_fails (sp : ClusterSpec) (w : World Cloud) :
  __instance_key !! name (provider sp) = None ->
  exists e, __make_config sp w = (inl e, w).
Proof.
  intros Hnone.
  destruct (__make_config sp w) as [[e|cfg] w'] eqn:E.
  - pose proof (make_config_reads_only sp w) as Hw. rewrite E in Hw.
    simpl in Hw. subst w'. eauto.
  - exfalso. revert E.
    unfold __make_config, lookup_instance_key, bind, lift, read_file, gets, ret.
    rewrite Hnone. repeat case_match; simplify_eq/=; done.
Qed.

(** C8: for every cluster specification with a supported provider and a
    template that has the four sections, the document [__make_config] builds
    has [min_workers], [max_workers] and [initial_workers] equal to the
    specification's worker count and [provider.type] equal to the provider's
    name; when the specification has no region (unset or empty),
    [provider.region] is what the template has there, absent if absent. *)
Theorem make_config_workers_and_provider
    (sp : ClusterSpec) (w : World Cloud) (tpl : yaml) :
  loads_template w tpl ->
  has_section tpl "provider" -> has_section tpl "auth" ->
  has_section tpl "head_node" -> has_section tpl "worker_nodes" ->
  is_Some (__instance_key !! name (provider sp)) ->
  exists cfg,
    __make_config sp w = (inr cfg, w) /\
    getitem cfg "min_workers" = inr (YInt (worker_count sp)) /\
    getitem cfg "max_workers" = inr (YInt (worker_count sp)) /\
    getitem cfg "initial_workers" = inr (YInt (worker_count sp)) /\
    getitem2 cfg "provider" "type" = inr (YStr (name (provider sp))) /\
    (truthy (region (provider sp)) = false ->
     getitem2 cfg "provider" "region" = getitem2 tpl "provider" "region").
Proof.
  intros Hload Hprov Hauth Hhead Hwork [ikey Hkey].
  destruct (make_config_prefix sp w tpl Hload Hprov Hauth) as (c9 & S9 & E).
  assert (exists cfg, __make_config sp w = (inr cfg, w)) as [cfg Hcfg].
  { rewrite E.
    erewrite lift_bind by (unfold lookup_instance_key; by rewrite Hkey).
    destruct (setitem2_section c9 "head_node" ikey (opt_str (head_node_type sp)))
      as [c10 E10]; [by apply S9|].
    erewrite lift_bind by exact E10.
    destruct (setitem2_section c10 "worker_nodes" ikey
                (opt_str (worker_node_type sp))) as [c11 E11].
    { eapply setitem2_keeps_section; [exact E10|]. by apply S9. }
    erewrite lift_bind by exact E11. by exists c11. }
  exists cfg. split; [done|].
  by destruct (make_config_result sp w w tpl cfg Hload Hcfg) as [_ ?].
Qed.

(** C5: for every provider name without an entry in the instance-type or the
    credentials-environment table, the lookup of [__init__] and the lookup
    of [__make_config] raise the same error, and config building raises it
    with the world (hence every file and directory) exactly as it was; the
    packaged template is assumed readable with its [provider] and [auth]
    sections. *)
Theorem unknown_provider_fails_before_write
    (sp : ClusterSpec) (w : World Cloud) (tpl : yaml) :
  __instance_key !! name (provider sp) = None \/
  __credentials_env !! name (provider sp) = None ->
  loads_template w tpl ->
  has_section tpl "provider" -> has_section tpl "auth" ->
  lookup_credentials_env (name (provider sp))
    = inl (UnsupportedProviderError (name (provider sp))) /\
  lookup_instance_key (name (provider sp))
    = inl (UnsupportedProviderError (name (provider sp))) /\
  __make_config sp w = (inl (UnsupportedProviderError (name (provider sp))), w).
Proof.
  intros [Hi Hc]%unknown_provider_no_entry Hload Hprov Hauth.
  split; [|split].
  - unfold lookup_credentials_env. by rewrite Hc.
  - unfold lookup_instance_key. by rewrite Hi.
  - destruct (make_config_prefix sp w tpl Hload Hprov Hauth) as (c9 & _ & ->).
    apply lift_bind_fail. unfold lookup_instance_key. by rewrite Hi.
Qed.

End ConfigBuilder.

Lemma make_config_workers_and_provider_witness :
  exists cfg,
    @__make_config unit Demo.libraries Demo.installation Demo.aws_spec Demo.world
      = (inr cfg, Demo.world) /\
    getitem cfg "min_workers" = inr (YInt 4) /\
    getitem cfg "max_workers" = inr (YInt 4) /\
    getitem cfg "initial_workers" = inr (YInt 4) /\
    getitem2 cfg "provider" "type" = inr (YStr "aws") /\
    (truthy None = false ->
     getitem2 cfg "provider" "region" = inr (YStr "us-west-1")).
Proof.
  apply (@make_config_workers_and_provider unit Demo.libraries Demo.installation
           Demo.aws_spec Demo.world Demo.template).
  - exists "cluster_name: default". split; [vm_compute|]; reflexivity.
  - eexists; reflexivity.
  - eexists; reflexivity.
  - eexists; reflexivity.
  - eexists; reflexivity.
  - exists "InstanceType". vm_compute. reflexivity.
Defined.

Lemma unknown_provider_fails_before_write_witness :
  @lookup_credentials_env Demo.installation "gcp"
  = inl (ValueError "Unsupported provider: gcp") /\
  @lookup_instance_key Demo.installation "gcp"
  = inl (ValueError "Unsupported provider: gcp") /\
  @__make_config unit Demo.libraries Demo.installation Demo.gcp_spec Demo.world
  = (inl (ValueError "Unsupported provider: gcp"), Demo.world).
Proof.
  apply (@unknown_provider_fails_before_write unit Demo.libraries
           Demo.installation Demo.gcp_spec Demo.world Demo.template).
  - left. vm_compute. reflexivity.
  - exists "cluster_name: default". split; [vm_compute|]; reflexivity.
  - eexists; reflexivity.
  - eexists; reflexivity.
Defined.

(** *** Facts about strings *)

Lemma length_append (s1 s2 : string) :
  String.length (s1 ++ s2) = (String.length s1 + String.length s2)%nat.
Proof. induction s1 as [|a s1 IH]; simpl; [done|]. by rewrite IH. Qed.

Lemma length_substring_prefix (n : nat) (s : string) :
  (n <= String.length s)%nat -> String.length (String.substring 0 n s) = n.
Proof.
  revert n. induction s as [|a s IH]; intros [|n] Hn; simpl in *; try done.
  - lia.
  - rewrite IH; [done|lia].
Qed.

Lemma elem_here {A} (x : A) (l : list A) : x ∈ x :: l.
Proof. apply elem_of_cons. by left. Qed.

Lemma elem_further {A} (x y : A) (l : list A) : x ∈ l -> x ∈ y :: l.
Proof. intros. apply elem_of_cons. by right. Qed.

Section ConfigPersist.
Context {Cloud : Type}.
Context {libs : Libraries} {inst : Installation}.

Lemma length_config_entry (prefix : string) :
  String.length (config_entry prefix)
  = (String.length cfgdir + 12 + String.length prefix)%nat.
Proof.
  unfold config_entry, os_path_join. rewrite !length_append. simpl. lia.
Qed.

Lemma config_entry_length_inj (p q : string) :
  config_entry p = config_entry q -> String.length p = String.length q.
Proof.
  intros H. apply (f_equal String.length) in H.
  rewrite !length_config_entry in H. lia.
Qed.

(** The loop answers with the full-hash entry or with the entry of one of
    the stops. *)
Lemma find_entry_shape (w : World Cloud) (namehash : string) (stops : list nat) :
  find_entry w namehash stops = config_entry namehash \/
  exists stop, stop ∈ stops /\
    find_entry w namehash stops
    = config_entry (String.substring 0 stop namehash).
Proof.
  induction stops as [|s rest IH]; simpl; [by left|].
  destruct (os_path_exists _ w); simpl.
  - destruct IH as [IH|(stop & Hin & IH)]; [by left|].
    right. exists stop. split; [by apply elem_further|done].
  - right. exists s. split; [by apply elem_here|done].
Qed.

(** The loop answers with the full-hash entry exactly when every stop's
    entry exists. *)
Lemma find_entry_full (w : World Cloud) (namehash : string) (stops : list nat) :
  (forall s, s ∈ stops -> (s < String.length namehash)%nat) ->
  find_entry w namehash stops = config_entry namehash <->
  forall s, s ∈ stops ->
    os_path_exists (config_entry (String.substring 0 s namehash)) w = true.
Proof.
  intros Hlt. induction stops as [|s rest IH]; simpl.
  - split; [|done]. intros _ s Hs. by apply elem_of_nil in Hs.
  - assert (Hs : (s < String.length namehash)%nat)
      by (apply Hlt, elem_here).
    destruct (os_path_exists (config_entry (String.substring 0 s namehash)) w)
      eqn:E; simpl.
    + rewrite IH by (intros; by apply Hlt, elem_further).
      split.
      * intros H s' [->|Hin]%elem_of_cons; [done|by apply H].
      * intros H s' Hin. by apply H, elem_further.
    + split.
      * intros H%config_entry_length_inj.
        rewrite length_substring_prefix in H by lia. lia.
      * intros H. rewrite H in E by apply elem_here. done.
Qed.

(** Asking again in a world that has everything the first world had, and the
    first answer too: the answer is the same exactly for the full-hash
    entry. *)
Lemma find_entry_again (wa wb : World Cloud) (namehash : string)
    (stops : list nat) :
  NoDup stops ->
  (forall s, s ∈ stops -> (s < String.length namehash)%nat) ->
  (forall p, os_path_exists p wa = true -> os_path_exists p wb = true) ->
  os_path_exists (find_entry wa namehash stops) wb = true ->
  find_entry wa namehash stops = find_entry wb namehash stops <->
  find_entry wa namehash stops = config_entry namehash.
Proof.
  intros Hnd Hlt Hmono. induction stops as [|s rest IH]; simpl; [done|].
  apply NoDup_cons in Hnd as [Hnotin Hnd].
  assert (Hs : (s < String.length namehash)%nat)
    by (apply Hlt, elem_here).
  destruct (os_path_exists (config_entry (String.substring 0 s namehash)) wa)
    eqn:Ea; simpl.
  - rewrite (Hmono _ Ea). simpl.
    apply IH; [done|]. intros; by apply Hlt, elem_further.
  - intros Hb. rewrite Hb. simpl. split.
    + intros Heq. exfalso.
      destruct (find_entry_shape wb namehash rest) as [E|(s' & Hin & E)];
        rewrite E in Heq; apply config_entry_length_inj in Heq;
        rewrite length_substring_prefix in Heq by lia.
      * lia.
      * rewrite length_substring_prefix in Heq
          by (apply Nat.lt_le_incl, Hlt, elem_further, Hin).
        by subst s'.
    + intros Heq%config_entry_length_inj.
      rewrite length_substring_prefix in Heq by lia. lia.
Qed.

Lemma stops_of_spec (namehash : string) :
  NoDup (stops_of namehash) /\
  forall s, s ∈ stops_of namehash -> (4 <= s < String.length namehash)%nat.
Proof.
  unfold stops_of. split; [apply NoDup_seq|].
  intros s Hs%elem_of_seq. lia.
Qed.

Lemma find_entry_ext (wa wb : World Cloud) (namehash : string) (stops : list nat) :
  (forall s, os_path_exists (config_entry (String.substring 0 s namehash)) wa
             = os_path_exists (config_entry (String.substring 0 s namehash)) wb) ->
  find_entry wa namehash stops = find_entry wb namehash stops.
Proof.
  intros Hext. induction stops as [|s rest IH]; simpl; [done|].
  by rewrite Hext, IH.
Qed.

Lemma config_entry_not_cfgdir (prefix : string) : config_entry prefix <> cfgdir.
Proof.
  intros H. apply (f_equal String.length) in H.
  rewrite length_config_entry in H. lia.
Qed.

(** A successful [os.makedirs] changes no file and at most adds the
    directory itself. *)
Lemma makedirs_exists (d : string) (w w0 : World Cloud) :
  os_makedirs d w = (inr tt, w0) ->
  files w0 = files w /\
  forall q, os_path_exists q w0 = os_path_exists q w || bool_decide (q = d).
Proof.
  unfold os_makedirs, os_path_exists.
  destruct (files w !! d) eqn:Ef; [discriminate|].
  destruct (dirs w !! d) eqn:Ed; intros H; injection H as <-; (split; [done|]);
    intros q; simpl;
    (destruct (decide (q = d)) as [->|Hne];
     [rewrite (bool_decide_true (d = d)) by done
     |rewrite (bool_decide_false (q = d)) by done; rewrite orb_false_r]).
  - rewrite Ed. rewrite (bool_decide_true (is_Some (Some _))) by eauto.
    by rewrite !orb_true_r.
  - done.
  - rewrite lookup_insert_eq.
    rewrite (bool_decide_true (is_Some (Some _))) by eauto.
    by rewrite !orb_true_r.
  - by rewrite lookup_insert_ne.
Qed.

(** A successful write makes its path exist and removes nothing. *)
Lemma write_file_exists (p text : string) (w0 w1 : World Cloud) :
  write_file p text w0 = (inr tt, w1) ->
  os_path_exists p w1 = true /\
  forall q, os_path_exists q w0 = true -> os_path_exists q w1 = true.
Proof.
  unfold write_file, os_path_exists.
  destruct (dirs w0 !! p); [discriminate|]. intros H; injection H as <-. simpl.
  split.
  - rewrite lookup_insert_eq.
    by rewrite (bool_decide_true (is_Some (Some _))) by eauto.
  - intros q Hq. destruct (decide (p = q)) as [->|Hne].
    + rewrite lookup_insert_eq.
      by rewrite (bool_decide_true (is_Some (Some _))) by eauto.
    + by rewrite lookup_insert_ne.
Qed.

(** A successful [__save_config], step by step. *)
Lemma save_config_inr (cfg : yaml) (w w1 : World Cloud) (p : string) :
  __save_config cfg w = (inr p, w1) ->
  exists w0,
    os_makedirs cfgdir w = (inr tt, w0) /\
    p = find_entry w0 (sha1_hexdigest (repr cfg))
          (stops_of (sha1_hexdigest (repr cfg))) /\
    write_file p (yaml_dump cfg) w0 = (inr tt, w1).
Proof.
  intros H. unfold __save_config in H.
  inv_bind H as u w0 Hmk. destruct u.
  inv_bind H as entry w0' Hfind. unfold gets in Hfind.
  injection Hfind as <- <-.
  inv_bind H as u w1' Hwrite. destruct u.
  unfold ret in H. injection H as <- <-.
  exists w0. by repeat split.
Qed.

(** Whatever the loop answers was not a directory before, unless it is the
    full-hash entry. *)
Lemma find_entry_free (w : World Cloud) (namehash : string) (stops : list nat) :
  find_entry w namehash stops = config_entry namehash \/
  os_path_exists (find_entry w namehash stops) w = false.
Proof.
  induction stops as [|s rest IH]; simpl; [by left|].
  destruct (os_path_exists (config_entry (String.substring 0 s namehash)) w)
    eqn:E; simpl; [done|by right].
Qed.

(** [__save_config] returns a path as soon as the config directory is not a
    regular file and the full-hash entry is not a directory. *)
Lemma save_config_succeeds (cfg : yaml) (w : World Cloud) :
  files w !! cfgdir = None ->
  dirs w !! config_entry (sha1_hexdigest (repr cfg)) = None ->
  exists p w1, __save_config cfg w = (inr p, w1).
Proof.
  intros Hf Hd. unfold __save_config.
  assert (exists w0, os_makedirs cfgdir w = (inr tt, w0)) as [w0 Hmk].
  { unfold os_makedirs. rewrite Hf. destruct (dirs w !! cfgdir); eauto. }
  destruct (makedirs_exists _ _ _ Hmk) as [Hfiles Hex].
  erewrite bind_ok by exact Hmk. erewrite bind_ok by reflexivity.
  set (entry := find_entry w0 _ _).
  assert (Hentry : dirs w0 !! entry = None).
  { assert (Hnot : forall q, q <> cfgdir -> dirs w !! q = None ->
                             dirs w0 !! q = None).
    { intros q Hq Hnone. revert Hmk. unfold os_makedirs. rewrite Hf.
      destruct (dirs w !! cfgdir); intros [= <-]; [done|].
      simpl. by rewrite lookup_insert_ne. }
    destruct (find_entry_free w0 (sha1_hexdigest (repr cfg))
                (stops_of (sha1_hexdigest (repr cfg)))) as [E|E]; fold entry in E.
    - rewrite E. apply Hnot; [apply config_entry_not_cfgdir|done].
    - unfold os_path_exists in E. apply orb_false_iff in E as [_ E].
      apply bool_decide_eq_false in E.
      destruct (dirs w0 !! entry); [|done]. exfalso. eauto. }
  exists entry. eexists. erewrite bind_ok; [reflexivity|].
  unfold write_file. by rewrite Hentry.
Qed.

(** C4, as the code has it: the target path is decided by the content hash
    together with the paths that already exist.  From the same set of
    existing paths the same document gets the same path; the path is the
    full-hash entry exactly when the entry of every shorter prefix (4 up to
    one less than the hash length) already existed; and a second persist of
    the same document right after the first returns the same path exactly
    in that case, and a different one otherwise. *)
Theorem save_config_path_depends_on_files
    (cfg : yaml) (w w1 : World Cloud) (p1 : string) :
  __save_config cfg w = (inr p1, w1) ->
  let namehash := sha1_hexdigest (repr cfg) in
  (forall (w' w1' : World Cloud) (p' : string),
      (forall q, os_path_exists q w' = os_path_exists q w) ->
      __save_config cfg w' = (inr p', w1') -> p' = p1) /\
  (p1 = config_entry namehash <->
   forall s, (4 <= s < String.length namehash)%nat ->
     os_path_exists (config_entry (String.substring 0 s namehash)) w = true) /\
  (forall p2 w2,
      __save_config cfg w1 = (inr p2, w2) ->
      (p1 = p2 <-> p1 = config_entry namehash)).
Proof.
  intros H1 namehash.
  destruct (save_config_inr _ _ _ _ H1) as (w0 & Hmk & Hp1 & Hwr).
  fold namehash in Hp1.
  destruct (makedirs_exists _ _ _ Hmk) as [_ Hex0].
  destruct (stops_of_spec namehash) as [Hnd Hrange].
  assert (Hcand : forall (v v0 : World Cloud),
            (forall q, os_path_exists q v0
                       = os_path_exists q v || bool_decide (q = cfgdir)) ->
            forall s, os_path_exists
                        (config_entry (String.substring 0 s namehash)) v0
                      = os_path_exists
                          (config_entry (String.substring 0 s namehash)) v).
  { intros v v0 Hv s. rewrite Hv.
    rewrite bool_decide_false by apply config_entry_not_cfgdir.
    by rewrite orb_false_r. }
  split; [|split].
  - intros w' w1' p' Hsame H'.
    destruct (save_config_inr _ _ _ _ H') as (w0' & Hmk' & Hp' & _).
    fold namehash in Hp'. subst p' p1.
    destruct (makedirs_exists _ _ _ Hmk') as [_ Hex0'].
    apply find_entry_ext. intros s.
    by rewrite (Hcand w' w0' Hex0'), (Hcand w w0 Hex0), Hsame.
  - subst p1. rewrite find_entry_full by (intros s Hs; by apply Hrange).
    split.
    + intros Hall s Hs. rewrite <- (Hcand w w0 Hex0). apply Hall.
      unfold stops_of. apply elem_of_seq. lia.
    + intros Hall s Hs. rewrite (Hcand w w0 Hex0). by apply Hall, Hrange.
  - intros p2 w2 H2.
    destruct (save_config_inr _ _ _ _ H2) as (w0' & Hmk' & Hp2 & _).
    fold namehash in Hp2.
    destruct (makedirs_exists _ _ _ Hmk') as [_ Hex1].
    destruct (write_file_exists _ _ _ _ Hwr) as [Hnew Hold].
    subst p2. rewrite Hp1.
    apply find_entry_again; [done|intros s Hs; by apply Hrange| |].
    + intros q Hq. rewrite Hex1, (Hold q Hq). done.
    + rewrite Hex1. rewrite <- Hp1. by rewrite Hnew.
Qed.

End ConfigPersist.

Lemma save_config_path_depends_on_files_witness :
  "/home/modin/.modin/cloud/config-f87d.yml"
  = "/home/modin/.modin/cloud/config-f87d1.yml" <->
  "/home/modin/.modin/cloud/config-f87d.yml"
  = @config_entry Demo.installation "f87d10f193d52e3274fda5fa4a5800d0455a6719".
Proof.
  set (r1 := Demo.persist Demo.template Demo.world).
  set (r2 := Demo.persist Demo.template (snd r1)).
  assert (H1 : Demo.persist Demo.template Demo.world
               = (inr "/home/modin/.modin/cloud/config-f87d.yml", snd r1))
    by (vm_compute; reflexivity).
  assert (H2 : Demo.persist Demo.template (snd r1)
               = (inr "/home/modin/.modin/cloud/config-f87d1.yml", snd r2))
    by (vm_compute; reflexivity).
  exact (proj2 (proj2 (@save_config_path_depends_on_files unit Demo.libraries
                         Demo.installation Demo.template Demo.world (snd r1)
                         _ H1)) _ (snd r2) H2).
Defined.

(** C4 fails as stated: the same document persisted twice in a row, starting
    with an empty config directory, goes to [config-f87d.yml] and then to
    [config-f87d1.yml]. *)
Lemma save_config_twice_differs :
  let first := Demo.persist Demo.template Demo.world in
  let second := Demo.persist Demo.template (snd first) in
  fst first = inr "/home/modin/.modin/cloud/config-f87d.yml" /\
  fst second = inr "/home/modin/.modin/cloud/config-f87d1.yml" /\
  fst first <> fst second.
Proof. vm_compute. repeat split. discriminate. Qed.

(** *** The background bodies *)

Section Lifecycle.
Context {Cloud : Type}.
Context {libs : Libraries} {tool : Autoscaler Cloud}.

Ltac run_body :=
  unfold __spawn, __destroy, try_except, bind, self, gets, in_world,
    call_create_or_update, call_teardown, tool_call, modify_self, modify,
    lift, read_file, stderr_write, ret;
  simpl; repeat case_match; simplify_eq/=.

(** Neither body lets an exception out, and neither touches a task object or
    the config file's path. *)
Lemma body_returns (t : Target) (s : RayCluster * World Cloud) :
  fst (run_target t s) = inr tt /\
  spawner (fst (snd (run_target t s))) = spawner (fst s) /\
  destroyer (fst (snd (run_target t s))) = destroyer (fst s) /\
  config_file (fst (snd (run_target t s))) = config_file (fst s).
Proof.
  destruct s as [c w], t; unfold run_target; run_body; done.
Qed.

Lemma spawn_failure (c : RayCluster) (w : World Cloud) (e : pyexc) :
  (create_or_update_cluster (config_file c) (files w) (cloud w)).1.1 = Some e ->
  fst (__spawn (c, w)) = inr tt /\
  ready (fst (snd (__spawn (c, w)))) = ready c /\
  config (fst (snd (__spawn (c, w)))) = config c /\
  spawn_exc (fst (snd (__spawn (c, w))))
  = Some (CannotSpawnCluster "Cannot spawn cluster" e).
Proof.
  intros H. run_body; done.
Qed.

Lemma destroy_failure (c : RayCluster) (w : World Cloud) (e : pyexc) :
  (teardown_cluster (config_file c) (files w) (cloud w)).1.1 = Some e ->
  fst (__destroy (c, w)) = inr tt /\
  ready (fst (snd (__destroy (c, w)))) = ready c /\
  config (fst (snd (__destroy (c, w)))) = config c /\
  destroy_exc (fst (snd (__destroy (c, w))))
  = Some (CannotDestroyCluster "Cannot destroy cluster" e).
Proof.
  intros H. run_body; done.
Qed.

Lemma spawn_success (c : RayCluster) (w : World Cloud) f' c' text cfg :
  create_or_update_cluster (config_file c) (files w) (cloud w) = (None, f', c') ->
  f' !! config_file c = Some text ->
  yaml_safe_load text = inr cfg ->
  fst (__spawn (c, w)) = inr tt /\
  ready (fst (snd (__spawn (c, w)))) = true /\
  config (fst (snd (__spawn (c, w)))) = cfg /\
  spawn_exc (fst (snd (__spawn (c, w)))) = spawn_exc c.
Proof.
  intros H Hf Hy.
  unfold __spawn, try_except, bind, self, gets, in_world,
    call_create_or_update, tool_call, modify_self, modify, lift, read_file, ret.
  simpl. rewrite H. simpl. rewrite Hf. simpl. rewrite Hy. done.
Qed.

(** *** __run_thread *)

Ltac run_call :=
  unfold spawn, destroy, __run_thread, Thread_join, Thread_new, modify_task,
    modify_self, modify, self, gets, bind, raise, ret;
  simpl.

Ltac finish_call :=
  repeat split; try done;
  try (intros [] ?; done);
  try (by rewrite ?orb_true_r, ?orb_false_r);
  try (eexists; split; [reflexivity|]; repeat split; try done;
       by intros ? [= <-]).

(** On a task whose thread was never started, [__run_thread] starts nothing:
    without [wait] it returns, with [wait] the join raises.  The object and
    the world stay as they were but for the task's [thread] (filled on the
    first call, kept afterwards) and [silent] (set by [wait]). *)
Lemma run_thread_unstarted (wait : bool) (r : TaskRef)
    (c : RayCluster) (w : World Cloud) :
  unstarted (get_task r c) ->
  let res := __run_thread wait r (c, w) in
  let c' := fst (snd res) in
  let w' := snd (snd res) in
  fst res = (if wait then inl join_error else inr tt) /\
  (ready c' = ready c /\ config c' = config c /\ config_file c' = config_file c /\
   spec c' = spec c /\ spawn_exc c' = spawn_exc c /\ destroy_exc c' = destroy_exc c) /\
  (files w' = files w /\ dirs w' = dirs w /\ environ w' = environ w /\
   stderr w' = stderr w /\ cloud w' = cloud w /\
   gateway_calls w' = gateway_calls w) /\
  (forall r', r' <> r -> get_task r' c' = get_task r' c) /\
  (exc (get_task r c') = exc (get_task r c) /\
   target (get_task r c') = target (get_task r c) /\
   silent (get_task r c') = silent (get_task r c) || wait) /\
  (exists t, thread (get_task r c') = Some t /\ status t = Initial /\
             (forall t0, thread (get_task r c) = Some t0 -> t = t0) /\
             (thread (get_task r c) = None ->
              t = mkThread (threads_created w) (target (get_task r c)) Initial)).
Proof.
  intros Hun. destruct c as [[tg1 th1 ex1 si1] [tg2 th2 ex2 si2] rd sp cf path se de].
  destruct r; simpl in Hun; unfold unstarted in Hun; simpl in Hun.
  - destruct th1 as [[i tg st]|]; simpl in Hun; subst; destruct wait; run_call;
      finish_call.
  - destruct th2 as [[i tg st]|]; simpl in Hun; subst; destruct wait; run_call;
      finish_call.
Qed.

(** With [wait], on a task without captured error: whatever the state of the
    thread, the call returns or raises the join error, and no task gets a
    captured error. *)
Lemma run_thread_exc (wait : bool) (r : TaskRef) (c : RayCluster) (w : World Cloud) :
  exc (spawner c) = None -> exc (destroyer c) = None ->
  let res := __run_thread wait r (c, w) in
  exc (spawner (fst (snd res))) = None /\
  exc (destroyer (fst (snd res))) = None /\
  (fst res = inr tt \/ fst res = inl join_error).
Proof.
  intros H1 H2.
  destruct c as [[tg1 th1 ex1 si1] [tg2 th2 ex2 si2] rd sp cf path se de].
  simpl in H1, H2. subst ex1 ex2.
  destruct r, wait.
  - destruct th1 as [[i tg [| |]]|]; run_call; try (by eauto).
    match goal with |- context [run_target tg ?s] =>
      pose proof (body_returns tg s) as (Hr & Hs & Hd & _);
      destruct (run_target tg s) as [[e|[]] [c1 w1]] end;
      simpl in *; [discriminate|].
    destruct c1; simpl in *; subst; simpl. by eauto.
  - destruct th1 as [[i tg st]|]; run_call; by eauto.
  - destruct th2 as [[i tg [| |]]|]; run_call; try (by eauto).
    match goal with |- context [run_target tg ?s] =>
      pose proof (body_returns tg s) as (Hr & Hs & Hd & _);
      destruct (run_target tg s) as [[e|[]] [c1 w1]] end;
      simpl in *; [discriminate|].
    destruct c1; simpl in *; subst; simpl. by eauto.
  - destruct th2 as [[i tg st]|]; run_call; by eauto.
Qed.

(** [_get_connection_details] leaves the object as it is. *)
Lemma connection_details_object (s : RayCluster * World Cloud) :
  fst (snd (_get_connection_details s)) = fst s.
Proof.
  destruct s as [c w].
  unfold _get_connection_details, bind, self, gets, raise, lift, in_world,
    call_get_head_node_ip, ret.
  simpl. repeat case_match; simplify_eq/=; done.
Qed.

Lemma connection_details_not_ready (c : RayCluster) (w : World Cloud) :
  ready c = false ->
  _get_connection_details (c, w) = (inl not_ready_error, (c, w)).
Proof.
  intros H. unfold _get_connection_details, bind, self, gets, raise. simpl.
  by rewrite H.
Qed.

Lemma connection_details_ready (c : RayCluster) (w : World Cloud) user key addr :
  ready c = true ->
  getitem2 (config c) "auth" "ssh_user" = inr user ->
  getitem2 (config c) "auth" "ssh_private_key" = inr key ->
  get_head_node_ip (config_file c) (files w) (cloud w) = inr addr ->
  fst (_get_connection_details (c, w)) = inr (mkConnectionDetails user key addr 22).
Proof.
  intros Hr Hu Hk Ha.
  unfold _get_connection_details, bind, self, gets, raise, lift, in_world,
    call_get_head_node_ip, ret.
  simpl. rewrite Hr. simpl. rewrite Hu, Hk. simpl. by rewrite Ha.
Qed.

Lemma event_keeps_exc (ev : Event) (s : RayCluster * World Cloud) :
  exc (spawner (fst s)) = None -> exc (destroyer (fst s)) = None ->
  exc (spawner (fst (snd (run_event ev s)))) = None /\
  exc (destroyer (fst (snd (run_event ev s)))) = None.
Proof.
  intros H1 H2. destruct s as [c w]. destruct ev as [[wait|wait|]|t]; simpl.
  - destruct (run_thread_exc wait ref_spawner c w H1 H2) as (? & ? & _). done.
  - destruct (run_thread_exc wait ref_destroyer c w H1 H2) as (? & ? & _). done.
  - unfold bind.
    pose proof (connection_details_object (c, w)) as Hobj.
    destruct (_get_connection_details (c, w)) as [[e|d] [c1 w1]];
      simpl in *; by subst.
  - destruct (body_returns t (c, w)) as (_ & -> & -> & _). done.
Qed.

Lemma events_keep_exc (evs : list Event) (s : RayCluster * World Cloud) :
  exc (spawner (fst s)) = None -> exc (destroyer (fst s)) = None ->
  exc (spawner (fst (run_events evs s))) = None /\
  exc (destroyer (fst (run_events evs s))) = None.
Proof.
  revert s. induction evs as [|ev rest IH]; intros s H1 H2; simpl; [done|].
  destruct (event_keeps_exc ev s H1 H2). by apply IH.
Qed.

(** A dormant object stays dormant under every public call: no call reaches
    the provisioning tool, writes a file or writes to the error stream, and a
    thread object, once there, is kept. *)
Lemma op_keeps_dormant (o : Op) (c : RayCluster) (w : World Cloud) :
  dormant c ->
  let res := run_op o (c, w) in
  fst res = dormant_answer o /\
  dormant (fst (snd res)) /\
  gateway_calls (snd (snd res)) = gateway_calls w /\
  stderr (snd (snd res)) = stderr w /\
  files (snd (snd res)) = files w /\
  spawn_exc (fst (snd res)) = spawn_exc c /\
  destroy_exc (fst (snd res)) = destroy_exc c /\
  (forall r t, thread (get_task r c) = Some t ->
               thread (get_task r (fst (snd res))) = Some t).
Proof.
  intros (Hready & Hs & Hd). destruct o as [wait|wait|]; simpl.
  - destruct (run_thread_unstarted wait ref_spawner c w Hs)
      as (Hres & (Hrd & _ & _ & _ & Hse & Hde) & (Hf & _ & _ & Herr & _ & Hg)
          & Hother & _ & (t & Ht & Hst & Hkeep & _)).
    unfold spawn. rewrite Hres. repeat split; try done.
    + congruence.
    + unfold unstarted. simpl in Ht. by rewrite Ht.
    + specialize (Hother ref_destroyer). simpl in Hother.
      by rewrite Hother.
    + intros [] t0 Ht0; simpl in *.
      * rewrite Ht. f_equal. by apply Hkeep.
      * specialize (Hother ref_destroyer). simpl in Hother.
        by rewrite Hother.
  - destruct (run_thread_unstarted wait ref_destroyer c w Hd)
      as (Hres & (Hrd & _ & _ & _ & Hse & Hde) & (Hf & _ & _ & Herr & _ & Hg)
          & Hother & _ & (t & Ht & Hst & Hkeep & _)).
    unfold destroy. rewrite Hres. repeat split; try done.
    + congruence.
    + specialize (Hother ref_spawner). simpl in Hother.
      by rewrite Hother.
    + unfold unstarted. simpl in Ht. by rewrite Ht.
    + intros [] t0 Ht0; simpl in *.
      * specialize (Hother ref_spawner). simpl in Hother.
        by rewrite Hother.
      * rewrite Ht. f_equal. by apply Hkeep.
  - unfold bind. rewrite (connection_details_not_ready c w Hready). simpl.
    by repeat split.
Qed.

Lemma ops_keep_dormant (ops : list Op) (c : RayCluster) (w : World Cloud) :
  dormant c ->
  let s := run_ops ops (c, w) in
  dormant (fst s) /\
  gateway_calls (snd s) = gateway_calls w /\
  stderr (snd s) = stderr w /\
  files (snd s) = files w /\
  spawn_exc (fst s) = spawn_exc c /\
  destroy_exc (fst s) = destroy_exc c /\
  (forall r t, thread (get_task r c) = Some t ->
               thread (get_task r (fst s)) = Some t).
Proof.
  revert c w. induction ops as [|o rest IH]; intros c w Hdor; simpl; [done|].
  destruct (op_keeps_dormant o c w Hdor)
    as (_ & Hdor' & Hg & He & Hf & Hse & Hde & Hth).
  destruct (run_op o (c, w)) as [res [c1 w1]]; simpl in *.
  destruct (IH c1 w1 Hdor') as (? & Hg' & He' & Hf' & Hse' & Hde' & Hth').
  split; [done|]. repeat split; try congruence.
  intros r t Ht. by apply Hth', Hth.
Qed.

Lemma constructed_dormant (sp : ClusterSpec) (cfg : yaml) (path : string) :
  dormant (constructed sp cfg path).
Proof. by repeat split. Qed.

(** C9: a call of [spawn(wait=False)] or [destroy(wait=False)] returns
    without exception, leaves [ready], [config] and [config_file] as they
    were and makes no gateway call.  If the task has no thread yet, the only
    change is that its [thread] becomes a new thread object that was never
    started (and one more thread object has been made); if it has one,
    nothing changes at all, the thread object included.  The other task,
    the task's own [target], [exc] and [silent], the captured errors, the
    attributes and the rest of the world are as before in both cases. *)
Theorem nowait_call_frame (r : TaskRef) (c : RayCluster) (w : World Cloud) :
  let call := match r with
              | ref_spawner => spawn false
              | ref_destroyer => destroy false
              end in
  let res := call (c, w) in
  fst res = inr tt /\
  ready (fst (snd res)) = ready c /\
  config (fst (snd res)) = config c /\
  config_file (fst (snd res)) = config_file c /\
  gateway_calls (snd (snd res)) = gateway_calls w /\
  snd res =
    match thread (get_task r c) with
    | Some _ => (c, w)
    | None =>
        (set_task r
           (set_thread
              (Some (mkThread (threads_created w) (target (get_task r c)) Initial))
              (get_task r c)) c,
         mkWorld (files w) (dirs w) (environ w) (stderr w) (cloud w)
           (gateway_calls w) (S (threads_created w)))
    end /\
  match thread (get_task r c) with
  | Some t0 =>
      thread (get_task r (fst (snd res))) = Some t0 /\
      threads_created (snd (snd res)) = threads_created w
  | None =>
      exists t,
        thread (get_task r (fst (snd res))) = Some t /\
        status t = Initial /\
        ident t = threads_created w /\
        thread_target t = target (get_task r c) /\
        threads_created (snd (snd res)) = S (threads_created w)
  end /\
  (target (get_task r (fst (snd res))) = target (get_task r c) /\
   exc (get_task r (fst (snd res))) = exc (get_task r c) /\
   silent (get_task r (fst (snd res))) = silent (get_task r c)) /\
  (forall r', r' <> r -> get_task r' (fst (snd res)) = get_task r' c) /\
  (spec (fst (snd res)) = spec c /\
   spawn_exc (fst (snd res)) = spawn_exc c /\
   destroy_exc (fst (snd res)) = destroy_exc c) /\
  (files (snd (snd res)) = files w /\ dirs (snd (snd res)) = dirs w /\
   environ (snd (snd res)) = environ w /\ stderr (snd (snd res)) = stderr w /\
   cloud (snd (snd res)) = cloud w).
Proof.
  destruct c as [[tg1 th1 ex1 si1] [tg2 th2 ex2 si2] rd sp cf path se de].
  destruct r; [destruct th1|destruct th2]; run_call;
    repeat split; try done;
    try (by intros [] ?);
    try (eexists; by repeat split).
Qed.

(** C6: when [create_or_update_cluster] fails, [__spawn] returns normally
    with [ready] as it was (so still false on an object that was not ready)
    and the failure wrapped in [spawn_exc]; when [teardown_cluster] fails,
    [__destroy] returns normally with [ready] as it was and the failure
    wrapped in [destroy_exc]. *)
Theorem failed_body_keeps_ready (c : RayCluster) (w : World Cloud) :
  (forall e,
      (create_or_update_cluster (config_file c) (files w) (cloud w)).1.1 = Some e ->
      fst (__spawn (c, w)) = inr tt /\
      ready (fst (snd (__spawn (c, w)))) = ready c /\
      spawn_exc (fst (snd (__spawn (c, w))))
      = Some (CannotSpawnCluster "Cannot spawn cluster" e)) /\
  (forall e,
      (teardown_cluster (config_file c) (files w) (cloud w)).1.1 = Some e ->
      fst (__destroy (c, w)) = inr tt /\
      ready (fst (snd (__destroy (c, w)))) = ready c /\
      destroy_exc (fst (snd (__destroy (c, w))))
      = Some (CannotDestroyCluster "Cannot destroy cluster" e)).
Proof.
  split; intros e He.
  - by destruct (spawn_failure c w e He) as (? & ? & _ & ?).
  - by destruct (destroy_failure c w e He) as (? & ? & _ & ?).
Qed.

(** C10: from construction on, whatever public calls are made and whenever
    the background bodies run, [exc] of both tasks is [None]: the bodies
    return normally, leave the task objects alone and put a failure into
    [spawn_exc] or [destroy_exc]; so a call with [wait] returns or raises the
    join error, never a captured one. *)
Theorem task_exc_stays_none
    (sp : ClusterSpec) (cfg : yaml) (path : string) (w : World Cloud)
    (evs : list Event) :
  let s := run_events evs (constructed sp cfg path, w) in
  exc (spawner (fst s)) = None /\
  exc (destroyer (fst s)) = None /\
  (forall wait r, fst (__run_thread wait r s) = inr tt \/
                  fst (__run_thread wait r s) = inl join_error) /\
  (forall t, fst (run_target t s) = inr tt /\
             spawner (fst (snd (run_target t s))) = spawner (fst s) /\
             destroyer (fst (snd (run_target t s))) = destroyer (fst s)) /\
  match (create_or_update_cluster (config_file (fst s)) (files (snd s))
           (cloud (snd s))).1.1 with
  | Some e => spawn_exc (fst (snd (__spawn s)))
              = Some (CannotSpawnCluster "Cannot spawn cluster" e)
  | None => True
  end /\
  match (teardown_cluster (config_file (fst s)) (files (snd s))
           (cloud (snd s))).1.1 with
  | Some e => destroy_exc (fst (snd (__destroy s)))
              = Some (CannotDestroyCluster "Cannot destroy cluster" e)
  | None => True
  end.
Proof.
  intros s.
  destruct (events_keep_exc evs (constructed sp cfg path, w)) as [H1 H2];
    [done..|].
  fold s in H1, H2. destruct s as [c1 w1]. simpl in *.
  split; [done|]. split; [done|]. split; [|split; [|split]].
  - intros wait r. by destruct (run_thread_exc wait r c1 w1 H1 H2) as (_ & _ & ?).
  - intros t. by destruct (body_returns t (c1, w1)) as (? & ? & ? & _).
  - destruct (create_or_update_cluster _ _ _).1.1 as [e|] eqn:E; [|done].
    by destruct (spawn_failure c1 w1 e E) as (_ & _ & _ & ?).
  - destruct (teardown_cluster _ _ _).1.1 as [e|] eqn:E; [|done].
    by destruct (destroy_failure c1 w1 e E) as (_ & _ & _ & ?).
Qed.

(** C2, on the code: after [spawn(wait=False)] (or [destroy(wait=False)]) on
    a new object, and whatever public calls follow, the task's thread is
    still a thread that was never started: the provisioning tool has not
    been called, nothing was written to the error stream, nothing was
    captured, and the object is not ready. *)
Theorem nowait_call_never_starts
    (sp : ClusterSpec) (cfg : yaml) (path : string) (w : World Cloud)
    (r : TaskRef) (ops : list Op) :
  let first := match r with
               | ref_spawner => OpSpawn false
               | ref_destroyer => OpDestroy false
               end in
  let s := run_ops (first :: ops) (constructed sp cfg path, w) in
  (exists t, thread (get_task r (fst s)) = Some t /\ status t = Initial) /\
  gateway_calls (snd s) = gateway_calls w /\
  stderr (snd s) = stderr w /\
  ready (fst s) = false /\
  spawn_exc (fst s) = None /\
  destroy_exc (fst s) = None.
Proof.
  intros first s. subst s first. simpl run_ops.
  destruct (op_keeps_dormant
              match r with
              | ref_spawner => OpSpawn false
              | ref_destroyer => OpDestroy false
              end (constructed sp cfg path) w (constructed_dormant sp cfg path))
    as (_ & Hdor & Hg & He & _ & Hse & Hde & _).
  assert (Hth : exists t,
             thread (get_task r
               (fst (snd (run_op match r with
                                 | ref_spawner => OpSpawn false
                                 | ref_destroyer => OpDestroy false
                                 end (constructed sp cfg path, w))))) = Some t /\
             status t = Initial).
  { destruct r; run_call; eauto. }
  destruct (run_op _ (constructed sp cfg path, w)) as [res [c1 w1]].
  simpl in *. destruct Hth as (t & Ht & Hst).
  destruct (ops_keep_dormant ops c1 w1 Hdor)
    as ((Hrd & _) & Hg' & He' & _ & Hse' & Hde' & Hth').
  repeat split; try congruence.
  exists t. split; [by apply Hth'|done].
Qed.

(** C1, on the code: [spawn(wait=True)] on a new object raises the join
    error of a thread that was never started; the provisioning tool is not
    called, nothing is captured, the object is not ready.  And had the
    thread been started, a failure of [create_or_update_cluster] would go to
    [spawn_exc] while the call returns normally. *)
Theorem wait_spawn_raises_join_error
    (sp : ClusterSpec) (cfg : yaml) (path : string) (w : World Cloud) :
  let res := spawn true (constructed sp cfg path, w) in
  fst res = inl join_error /\
  gateway_calls (snd (snd res)) = gateway_calls w /\
  spawn_exc (fst (snd res)) = None /\
  exc (spawner (fst (snd res))) = None /\
  ready (fst (snd res)) = false /\
  forall i,
    let running :=
      set_spawner
        (mkThreadTask target_spawn (Some (mkThread i target_spawn Started))
           None false)
        (constructed sp cfg path) in
    match (create_or_update_cluster path (files w) (cloud w)).1.1 with
    | Some e =>
        fst (spawn true (running, w)) = inr tt /\
        spawn_exc (fst (snd (spawn true (running, w))))
        = Some (CannotSpawnCluster "Cannot spawn cluster" e)
    | None => True
    end.
Proof.
  repeat split; try done.
  intros i running.
  destruct (create_or_update_cluster path (files w) (cloud w)).1.1
    as [e|] eqn:E; [|done].
  subst running. run_call.
  match goal with |- context [__spawn ?s] =>
    pose proof (body_returns target_spawn s) as (Hr & Hs & _);
    pose proof (spawn_failure (fst s) (snd s) e E) as (_ & _ & _ & Hexc);
    simpl in Hr, Hs, Hexc;
    destruct (__spawn s) as [[e'|[]] [c1 w1]]
  end; simpl in *; [discriminate|].
  destruct c1; simpl in *; subst; simpl. done.
Qed.

(** C7, on the code: a second [spawn(wait=True)] right after the first raises
    the join error again; it reuses the thread object of the first call and,
    like the first, does not call the provisioning tool. *)
Theorem second_wait_spawn_raises
    (sp : ClusterSpec) (cfg : yaml) (path : string) (w : World Cloud) :
  let first := spawn true (constructed sp cfg path, w) in
  let second := spawn true (snd first) in
  fst second = inl join_error /\
  gateway_calls (snd (snd second)) = gateway_calls w /\
  thread (spawner (fst (snd second))) = thread (spawner (fst (snd first))) /\
  threads_created (snd (snd second)) = S (threads_created w).
Proof. by repeat split. Qed.

(** C3, on the code: whatever the provisioning tool would do,
    [spawn(wait=True)] on a new object raises the join error without calling
    it, and the connection-details request that follows fails the [ready]
    assertion. *)
Theorem wait_spawn_then_details_fails
    (sp : ClusterSpec) (cfg : yaml) (path : string) (w : World Cloud) :
  let first := spawn true (constructed sp cfg path, w) in
  let second := _get_connection_details (snd first) in
  fst first = inl join_error /\
  fst second = inl not_ready_error /\
  gateway_calls (snd (snd second)) = gateway_calls w /\
  ready (fst (snd second)) = false.
Proof. by repeat split. Qed.

End Lifecycle.

(** *** The demo installation *)

(** With a provisioning tool that always succeeds: [spawn(wait=True)] raises,
    the tool is never called, and the connection details are refused. *)
Example demo_healthy_spawn_then_details :
  let first := @spawn unit Demo.libraries Demo.healthy_tool true
                 (Demo.cluster, Demo.saved_world) in
  let second := @_get_connection_details unit Demo.healthy_tool (snd first) in
  fst first = inl join_error /\
  gateway_calls (snd (snd first)) = [] /\
  fst second = inl not_ready_error.
Proof. vm_compute. by repeat split. Qed.

(** The same object once ready: the details come from the config, the head
    node query and the default port. *)
Example demo_details_when_ready :
  fst (@_get_connection_details unit Demo.healthy_tool
         (set_ready true Demo.cluster, Demo.saved_world))
  = inr (mkConnectionDetails (YStr "modin") (YStr "~/.ssh/modin.pem")
           "10.0.0.1" 22).
Proof. vm_compute. reflexivity. Qed.

Lemma failed_body_keeps_ready_witness :
  fst (@__spawn unit Demo.libraries Demo.broken_tool (Demo.cluster, Demo.world))
  = inr tt /\
  ready (fst (snd (@__spawn unit Demo.libraries Demo.broken_tool
                     (Demo.cluster, Demo.world)))) = false /\
  spawn_exc (fst (snd (@__spawn unit Demo.libraries Demo.broken_tool
                         (Demo.cluster, Demo.world))))
  = Some (CannotSpawnCluster "Cannot spawn cluster" (ToolFailure "no quota")).
Proof.
  apply (proj1 (@failed_body_keeps_ready unit Demo.libraries Demo.broken_tool
                  Demo.cluster Demo.world) (ToolFailure "no quota")).
  reflexivity.
Defined.

(** * Further properties *)

(** Membership in a list that is written out. *)
Ltac in_list := repeat first [apply elem_here | apply elem_further].

(** *** __make_config, step by step *)

Section ConfigFields.
Context {Cloud : Type}.
Context {libs : Libraries} {inst : Installation}.

(** The documents a successful [__make_config] goes through. *)
Lemma make_config_steps (sp : ClusterSpec) (w w' : World Cloud) tpl cfg :
  loads_template w tpl ->
  __make_config sp w = (inr cfg, w') ->
  exists c1 c2 c3 c4 c5 c6 c7 c8 c9 c10 ikey,
    setitem tpl "cluster_name" (YStr (cluster_name sp)) = inr c1 /\
    setitem c1 "min_workers" (YInt (worker_count sp)) = inr c2 /\
    setitem c2 "max_workers" (YInt (worker_count sp)) = inr c3 /\
    setitem c3 "initial_workers" (YInt (worker_count sp)) = inr c4 /\
    setitem2 c4 "provider" "type" (YStr (name (provider sp))) = inr c5 /\
    (if truthy (region (provider sp))
     then setitem2 c5 "provider" "region" (opt_str (region (provider sp))) = inr c6
     else c6 = c5) /\
    (if truthy (zone (provider sp))
     then setitem2 c6 "provider" "zone" (opt_str (zone (provider sp))) = inr c7
     else c7 = c6) /\
    setitem2 c7 "auth" "ssh_user" (YStr "modin") = inr c8 /\
    match environ w !! "MODIN_SOCKS_PROXY" with
    | Some proxy =>
        if truthy (Some proxy)
        then setitem2 c8 "auth" "ssh_proxy_command"
               (YStr ("nc -x " ++ quote proxy ++ " %h %p")) = inr c9
        else c9 = c8
    | None => c9 = c8
    end /\
    lookup_instance_key (name (provider sp)) = inr ikey /\
    setitem2 c9 "head_node" ikey (opt_str (head_node_type sp)) = inr c10 /\
    setitem2 c10 "worker_nodes" ikey (opt_str (worker_node_type sp)) = inr cfg.
Proof.
  intros (text & Hfile & Hload) H. unfold __make_config in H.
  inv_bind H as text' w0 Hread. unfold read_file in Hread. rewrite Hfile in Hread.
  injection Hread as <- <-.
  inv_lift H as c0 Hc0. rewrite Hload in Hc0. injection Hc0 as <-.
  inv_lift H as c1 Hname.
  inv_lift H as c2 Hmin.
  inv_lift H as c3 Hmax.
  inv_lift H as c4 Hini.
  inv_lift H as c5 Htype.
  inv_bind H as c6 w6 Hregion. apply optional_update_inr in Hregion as [-> Hregion].
  inv_bind H as c7 w7 Hzone. apply optional_update_inr in Hzone as [-> Hzone].
  inv_bind H as proxy w8 Hget. unfold gets in Hget. injection Hget as <- <-.
  inv_lift H as c8 Huser.
  inv_bind H as c9 w9 Hproxy.
  assert (w9 = w /\
          match environ w !! "MODIN_SOCKS_PROXY" with
          | Some proxy =>
              if truthy (Some proxy)
              then setitem2 c8 "auth" "ssh_proxy_command"
                     (YStr ("nc -x " ++ quote proxy ++ " %h %p")) = inr c9
              else c9 = c8
          | None => c9 = c8
          end) as [-> Hp].
  { destruct (environ w !! "MODIN_SOCKS_PROXY") as [proxy|].
    - by apply optional_update_inr in Hproxy as [-> Hp].
    - unfold ret in Hproxy. by injection Hproxy as <- <-. }
  inv_lift H as ikey Hkey.
  inv_lift H as c10 Hhead.
  inv_lift H as c11 Hwork.
  unfold ret in H. injection H as <- <-.
  exists c1, c2, c3, c4, c5, c6, c7, c8, c9, c10, ikey.
  repeat split; done.
Qed.

Lemma lookup_instance_key_inr (n ikey : string) :
  lookup_instance_key n = inr ikey -> n = Provider_AWS /\ ikey = "InstanceType".
Proof.
  unfold lookup_instance_key, __instance_key.
  destruct (decide (n = Provider_AWS)) as [->|Hne].
  - rewrite lookup_singleton_eq. by intros [= <-].
  - rewrite lookup_singleton_ne by done. discriminate.
Qed.

Lemma make_config_loads (sp : ClusterSpec) (w w' : World Cloud) cfg :
  __make_config sp w = (inr cfg, w') -> exists tpl, loads_template w tpl.
Proof.
  intros H. unfold __make_config in H.
  inv_bind H as text w0 Hread. inv_lift H as tpl Hload.
  unfold read_file in Hread.
  destruct (files w !! __base_config) as [t|] eqn:E; [|discriminate].
  injection Hread as <- <-. by exists tpl, t.
Qed.

(** An update made only under a condition, seen from a key it cannot touch. *)
Lemma optional_step_getitem (b : bool) c k1 k2 v c' k :
  (if b then setitem2 c k1 k2 v = inr c' else c' = c) ->
  k1 <> k -> getitem c' k = getitem c k.
Proof.
  destruct b; [|by intros ->]. intros H Hne. by eapply getitem_setitem2_ne.
Qed.

Lemma optional_step_getitem2 (b : bool) c k1 k2 v c' j1 j2 :
  (if b then setitem2 c k1 k2 v = inr c' else c' = c) ->
  k1 <> j1 \/ k2 <> j2 -> getitem2 c' j1 j2 = getitem2 c j1 j2.
Proof.
  destruct b; [|by intros ->]. intros H Hne. by eapply getitem2_setitem2_ne.
Qed.

Lemma proxy_step c8 c9 (w : World Cloud) :
  match environ w !! "MODIN_SOCKS_PROXY" with
  | Some proxy =>
      if truthy (Some proxy)
      then setitem2 c8 "auth" "ssh_proxy_command"
             (YStr ("nc -x " ++ quote proxy ++ " %h %p")) = inr c9
      else c9 = c8
  | None => c9 = c8
  end ->
  exists b v, if b : bool then setitem2 c8 "auth" "ssh_proxy_command" v = inr c9
              else c9 = c8.
Proof.
  destruct (environ w !! "MODIN_SOCKS_PROXY") as [proxy|].
  - intros H. exists (truthy (Some proxy)). eauto.
  - intros H. by exists false, YNone.
Qed.

(** A document is only ever built for [Provider.AWS]. *)
Lemma make_config_only_aws (sp : ClusterSpec) (w : World Cloud) cfg :
  __make_config sp w = (inr cfg, w) -> name (provider sp) = Provider_AWS.
Proof.
  intros H. destruct (make_config_loads _ _ _ _ H) as [tpl Hload].
  destruct (make_config_steps _ _ _ _ _ Hload H)
    as (c1 & c2 & c3 & c4 & c5 & c6 & c7 & c8 & c9 & c10 & ikey & _ & _ & _
        & _ & _ & _ & _ & _ & _ & Hkey & _).
  by apply lookup_instance_key_inr in Hkey as [? _].
Qed.

(** X1: every document [__make_config] returns is for [Provider.AWS] and
    carries the specification: [cluster_name] is the cluster's name,
    [auth.ssh_user] is ["modin"] whatever the template said, and the
    [InstanceType] of [worker_nodes] is the worker node type ([None] goes in
    as such).  Each of these entries is read after the last write that uses
    its key; the [InstanceType] of [head_node] is written before that of
    [worker_nodes] and is not part of the statement. *)
Theorem make_config_carries_spec (sp : ClusterSpec) (w w' : World Cloud) cfg :
  __make_config sp w = (inr cfg, w') ->
  name (provider sp) = Provider_AWS /\
  getitem cfg "cluster_name" = inr (YStr (cluster_name sp)) /\
  getitem2 cfg "auth" "ssh_user" = inr (YStr "modin") /\
  getitem2 cfg "worker_nodes" "InstanceType"
  = inr (opt_str (worker_node_type sp)).
Proof.
  intros H. destruct (make_config_loads _ _ _ _ H) as [tpl Hload].
  destruct (make_config_steps _ _ _ _ _ Hload H)
    as (c1 & c2 & c3 & c4 & c5 & c6 & c7 & c8 & c9 & c10 & ikey & Hname & Hmin
        & Hmax & Hini & Htype & Hregion & Hzone & Huser & Hproxy & Hkey
        & Hhead & Hwork).
  apply lookup_instance_key_inr in Hkey as [HAWS ->].
  apply proxy_step in Hproxy as (b & v & Hproxy).
  split; [done|]. repeat split.
  - rewrite (getitem_setitem2_ne _ _ _ _ _ _ Hwork) by discriminate.
    rewrite (getitem_setitem2_ne _ _ _ _ _ _ Hhead) by discriminate.
    rewrite (optional_step_getitem _ _ _ _ _ _ _ Hproxy) by discriminate.
    rewrite (getitem_setitem2_ne _ _ _ _ _ _ Huser) by discriminate.
    rewrite (optional_step_getitem _ _ _ _ _ _ _ Hzone) by discriminate.
    rewrite (optional_step_getitem _ _ _ _ _ _ _ Hregion) by discriminate.
    rewrite (getitem_setitem2_ne _ _ _ _ _ _ Htype) by discriminate.
    rewrite (getitem_setitem_ne _ _ _ _ _ Hini) by discriminate.
    rewrite (getitem_setitem_ne _ _ _ _ _ Hmax) by discriminate.
    rewrite (getitem_setitem_ne _ _ _ _ _ Hmin) by discriminate.
    by rewrite (getitem_setitem_eq _ _ _ _ Hname).
  - rewrite (getitem2_setitem2_ne _ _ _ _ _ _ _ Hwork) by (left; discriminate).
    rewrite (getitem2_setitem2_ne _ _ _ _ _ _ _ Hhead) by (left; discriminate).
    rewrite (optional_step_getitem2 _ _ _ _ _ _ _ _ Hproxy)
      by (right; discriminate).
    by rewrite (getitem2_setitem2_eq _ _ _ _ _ Huser).
  - by rewrite (getitem2_setitem2_eq _ _ _ _ _ Hwork).
Qed.

(** X2: in every document [__make_config] returns, [provider.region] is the
    provider's region when one is given (not [None], not empty) and the
    template's entry otherwise; likewise [provider.zone]. *)
Theorem make_config_region_zone (sp : ClusterSpec) (w w' : World Cloud) tpl cfg :
  loads_template w tpl ->
  __make_config sp w = (inr cfg, w') ->
  getitem2 cfg "provider" "region"
  = (if truthy (region (provider sp))
     then inr (opt_str (region (provider sp)))
     else getitem2 tpl "provider" "region") /\
  getitem2 cfg "provider" "zone"
  = (if truthy (zone (provider sp))
     then inr (opt_str (zone (provider sp)))
     else getitem2 tpl "provider" "zone").
Proof.
  intros Hload H.
  destruct (make_config_steps _ _ _ _ _ Hload H)
    as (c1 & c2 & c3 & c4 & c5 & c6 & c7 & c8 & c9 & c10 & ikey & Hname & Hmin
        & Hmax & Hini & Htype & Hregion & Hzone & Huser & Hproxy & Hkey
        & Hhead & Hwork).
  apply proxy_step in Hproxy as (b & v & Hproxy).
  assert (Hlate : forall k, getitem2 cfg "provider" k = getitem2 c7 "provider" k).
  { intros k.
    rewrite (getitem2_setitem2_ne _ _ _ _ _ _ _ Hwork) by (left; discriminate).
    rewrite (getitem2_setitem2_ne _ _ _ _ _ _ _ Hhead) by (left; discriminate).
    rewrite (optional_step_getitem2 _ _ _ _ _ _ _ _ Hproxy)
      by (left; discriminate).
    by rewrite (getitem2_setitem2_ne _ _ _ _ _ _ _ Huser) by (left; discriminate). }
  assert (Hearly : forall k, k <> "type" ->
                             getitem2 c5 "provider" k = getitem2 tpl "provider" k).
  { intros k Hk.
    rewrite (getitem2_setitem2_ne _ _ _ _ _ _ _ Htype) by (right; congruence).
    rewrite (getitem2_setitem_ne _ _ _ _ _ _ Hini) by discriminate.
    rewrite (getitem2_setitem_ne _ _ _ _ _ _ Hmax) by discriminate.
    rewrite (getitem2_setitem_ne _ _ _ _ _ _ Hmin) by discriminate.
    by rewrite (getitem2_setitem_ne _ _ _ _ _ _ Hname) by discriminate. }
  rewrite !Hlate. split.
  - rewrite (optional_step_getitem2 _ _ _ _ _ _ _ _ Hzone)
      by (right; discriminate).
    destruct (truthy (region (provider sp))).
    + by eapply getitem2_setitem2_eq.
    + subst c6. by apply Hearly.
  - destruct (truthy (zone (provider sp))).
    + by eapply getitem2_setitem2_eq.
    + subst c7.
      rewrite (optional_step_getitem2 _ _ _ _ _ _ _ _ Hregion)
        by (right; discriminate).
      by apply Hearly.
Qed.

(** X3: in every document [__make_config] returns, [auth.ssh_proxy_command]
    is [nc -x <quoted proxy> %h %p] when [MODIN_SOCKS_PROXY] is set and not
    empty, with the proxy address passed through [shlex.quote]; otherwise it
    is the template's entry. *)
Theorem make_config_proxy_command (sp : ClusterSpec) (w w' : World Cloud) tpl cfg :
  loads_template w tpl ->
  __make_config sp w = (inr cfg, w') ->
  getitem2 cfg "auth" "ssh_proxy_command"
  = match environ w !! "MODIN_SOCKS_PROXY" with
    | Some proxy =>
        if String.eqb proxy ""
        then getitem2 tpl "auth" "ssh_proxy_command"
        else inr (YStr ("nc -x " ++ quote proxy ++ " %h %p"))
    | None => getitem2 tpl "auth" "ssh_proxy_command"
    end.
Proof.
  intros Hload H.
  destruct (make_config_steps _ _ _ _ _ Hload H)
    as (c1 & c2 & c3 & c4 & c5 & c6 & c7 & c8 & c9 & c10 & ikey & Hname & Hmin
        & Hmax & Hini & Htype & Hregion & Hzone & Huser & Hproxy & Hkey
        & Hhead & Hwork).
  rewrite (getitem2_setitem2_ne _ _ _ _ _ _ _ Hwork) by (left; discriminate).
  rewrite (getitem2_setitem2_ne _ _ _ _ _ _ _ Hhead) by (left; discriminate).
  assert (Hold : getitem2 c8 "auth" "ssh_proxy_command"
                 = getitem2 tpl "auth" "ssh_proxy_command").
  { rewrite (getitem2_setitem2_ne _ _ _ _ _ _ _ Huser) by (right; discriminate).
    rewrite (optional_step_getitem2 _ _ _ _ _ _ _ _ Hzone)
      by (left; discriminate).
    rewrite (optional_step_getitem2 _ _ _ _ _ _ _ _ Hregion)
      by (left; discriminate).
    rewrite (getitem2_setitem2_ne _ _ _ _ _ _ _ Htype) by (left; discriminate).
    rewrite (getitem2_setitem_ne _ _ _ _ _ _ Hini) by discriminate.
    rewrite (getitem2_setitem_ne _ _ _ _ _ _ Hmax) by discriminate.
    rewrite (getitem2_setitem_ne _ _ _ _ _ _ Hmin) by discriminate.
    by rewrite (getitem2_setitem_ne _ _ _ _ _ _ Hname) by discriminate. }
  destruct (environ w !! "MODIN_SOCKS_PROXY") as [proxy|]; [|by subst c9].
  unfold truthy in Hproxy. destruct (String.eqb proxy ""); simpl in Hproxy.
  - by subst c9.
  - by eapply getitem2_setitem2_eq.
Qed.

(** X4: [__make_config] keeps the scalars of the template it does not
    assign: a scalar entry of the document itself, and a scalar entry of any
    mapping that is an entry of the document, is in the result as in the
    template when no key on the way is one the function assigns to
    ([cluster_name], the three worker counts, [type], [region], [zone],
    [ssh_user], [ssh_proxy_command], [InstanceType]).  So
    [auth.ssh_private_key] and [provider] entries such as an availability
    setting survive. *)
Theorem make_config_keeps_template (sp : ClusterSpec) (w w' : World Cloud) tpl cfg :
  loads_template w tpl ->
  __make_config sp w = (inr cfg, w') ->
  (forall k v,
      k ∉ written_keys -> k ∉ section_keys ->
      getitem tpl k = inr v -> is_scalar v = true ->
      getitem cfg k = inr v) /\
  (forall s k v,
      s ∉ written_keys -> k ∉ written_keys ->
      getitem2 tpl s k = inr v -> is_scalar v = true ->
      getitem2 cfg s k = inr v).
Proof.
  intros Hload H.
  destruct (make_config_steps _ _ _ _ _ Hload H)
    as (c1 & c2 & c3 & c4 & c5 & c6 & c7 & c8 & c9 & c10 & ikey & Hname & Hmin
        & Hmax & Hini & Htype & Hregion & Hzone & Huser & Hproxy & Hkey
        & Hhead & Hwork).
  apply lookup_instance_key_inr in Hkey as [_ ->].
  apply proxy_step in Hproxy as (b & v & Hproxy).
  assert (Hfour : forall j1 j2, j1 <> "cluster_name" -> j1 <> "min_workers" ->
                    j1 <> "max_workers" -> j1 <> "initial_workers" ->
                    getitem2 c4 j1 j2 = getitem2 tpl j1 j2).
  { intros j1 j2 ? ? ? ?.
    rewrite (getitem2_setitem_ne _ _ _ _ _ _ Hini) by congruence.
    rewrite (getitem2_setitem_ne _ _ _ _ _ _ Hmax) by congruence.
    rewrite (getitem2_setitem_ne _ _ _ _ _ _ Hmin) by congruence.
    by rewrite (getitem2_setitem_ne _ _ _ _ _ _ Hname) by congruence. }
  assert (Hsec : forall j1 j2,
             (j1 = "provider" -> j2 ∉ ["type"; "region"; "zone"]) ->
             (j1 = "auth" -> j2 ∉ ["ssh_user"; "ssh_proxy_command"]) ->
             (j1 = "head_node" -> j2 <> "InstanceType") ->
             (j1 = "worker_nodes" -> j2 <> "InstanceType") ->
             getitem2 cfg j1 j2 = getitem2 c4 j1 j2).
  { intros j1 j2 Hp Ha Hh Hw.
    assert (forall k1 k2 : string, k1 <> j1 \/ (k1 = j1 /\ k2 <> j2) ->
                                   k1 <> j1 \/ k2 <> j2) as Hor by tauto.
    rewrite (getitem2_setitem2_ne _ _ _ _ _ _ _ Hwork).
    2:{ destruct (decide ("worker_nodes" = j1)) as [<-|]; [right|by left].
        intros <-. by apply Hw. }
    rewrite (getitem2_setitem2_ne _ _ _ _ _ _ _ Hhead).
    2:{ destruct (decide ("head_node" = j1)) as [<-|]; [right|by left].
        intros <-. by apply Hh. }
    rewrite (optional_step_getitem2 _ _ _ _ _ _ _ _ Hproxy).
    2:{ destruct (decide ("auth" = j1)) as [<-|]; [right|by left].
        intros <-. apply Ha; [done|]. in_list. }
    rewrite (getitem2_setitem2_ne _ _ _ _ _ _ _ Huser).
    2:{ destruct (decide ("auth" = j1)) as [<-|]; [right|by left].
        intros <-. apply Ha; [done|]. in_list. }
    rewrite (optional_step_getitem2 _ _ _ _ _ _ _ _ Hzone).
    2:{ destruct (decide ("provider" = j1)) as [<-|]; [right|by left].
        intros <-. apply Hp; [done|]. in_list. }
    rewrite (optional_step_getitem2 _ _ _ _ _ _ _ _ Hregion).
    2:{ destruct (decide ("provider" = j1)) as [<-|]; [right|by left].
        intros <-. apply Hp; [done|]. in_list. }
    rewrite (getitem2_setitem2_ne _ _ _ _ _ _ _ Htype); [done|].
    destruct (decide ("provider" = j1)) as [<-|]; [right|by left].
    intros <-. apply Hp; [done|]. in_list. }
  assert (Htop : forall k, k ∉ written_keys -> k ∉ section_keys ->
                           getitem cfg k = getitem tpl k).
  { intros k Hk Hs.
    assert (forall x, x ∈ written_keys \/ x ∈ section_keys -> k <> x) as Hne
      by (intros x [Hx|Hx] ->; done).
    rewrite (getitem_setitem2_ne _ _ _ _ _ _ Hwork)
      by (symmetry; apply Hne; right; in_list).
    rewrite (getitem_setitem2_ne _ _ _ _ _ _ Hhead)
      by (symmetry; apply Hne; right; in_list).
    rewrite (optional_step_getitem _ _ _ _ _ _ _ Hproxy)
      by (symmetry; apply Hne; right; in_list).
    rewrite (getitem_setitem2_ne _ _ _ _ _ _ Huser)
      by (symmetry; apply Hne; right; in_list).
    rewrite (optional_step_getitem _ _ _ _ _ _ _ Hzone)
      by (symmetry; apply Hne; right; in_list).
    rewrite (optional_step_getitem _ _ _ _ _ _ _ Hregion)
      by (symmetry; apply Hne; right; in_list).
    rewrite (getitem_setitem2_ne _ _ _ _ _ _ Htype)
      by (symmetry; apply Hne; right; in_list).
    rewrite (getitem_setitem_ne _ _ _ _ _ Hini)
      by (symmetry; apply Hne; left; in_list).
    rewrite (getitem_setitem_ne _ _ _ _ _ Hmax)
      by (symmetry; apply Hne; left; in_list).
    rewrite (getitem_setitem_ne _ _ _ _ _ Hmin)
      by (symmetry; apply Hne; left; in_list).
    by rewrite (getitem_setitem_ne _ _ _ _ _ Hname)
      by (symmetry; apply Hne; left; in_list). }
  split.
  - intros k val Hk Hs Hv _. by rewrite Htop.
  - intros s k val Hs Hk Hv _. rewrite <- Hv.
    assert (forall x, x ∈ written_keys -> s <> x /\ k <> x) as Hne
      by (intros x Hx; split; intros ->; done).
    rewrite Hsec.
    + apply Hfour; apply Hne; in_list.
    + intros _ Hin. apply Hk.
      repeat (apply elem_of_cons in Hin as [->|Hin]; [in_list|]).
      by apply elem_of_nil in Hin.
    + intros _ Hin. apply Hk.
      repeat (apply elem_of_cons in Hin as [->|Hin]; [in_list|]).
      by apply elem_of_nil in Hin.
    + intros _. apply Hne. in_list.
    + intros _. apply Hne. in_list.
Qed.

(** X5: a template without a [provider] entry makes [__make_config] raise
    [KeyError('provider')] for every specification, supported provider or
    not, and the world stays as it was. *)
Theorem make_config_without_provider_section
    (sp : ClusterSpec) (w : World Cloud) (entries : list (string * yaml)) :
  loads_template w (YDict entries) ->
  dict_get entries "provider" = None ->
  __make_config sp w = (inl (KeyError "provider"), w).
Proof.
  intros (text & Hfile & Hload) Hnone. unfold __make_config.
  erewrite bind_ok by (unfold read_file; by rewrite Hfile).
  erewrite lift_bind by exact Hload.
  do 4 (erewrite lift_bind by reflexivity).
  apply lift_bind_fail. unfold setitem2, getitem.
  rewrite !dict_get_set_ne by discriminate. by rewrite Hnone.
Qed.

End ConfigFields.

Lemma make_config_carries_spec_witness :
  "aws" = @Provider_AWS Demo.installation /\
  getitem Demo.west_config "cluster_name" = inr (YStr "taxi-cluster") /\
  getitem2 Demo.west_config "auth" "ssh_user" = inr (YStr "modin") /\
  getitem2 Demo.west_config "worker_nodes" "InstanceType" = inr YNone.
Proof.
  apply (@make_config_carries_spec unit Demo.libraries Demo.installation
           Demo.aws_west_spec Demo.proxy_world Demo.proxy_world Demo.west_config).
  vm_compute. reflexivity.
Defined.

Lemma make_config_region_zone_witness :
  getitem2 Demo.west_config "provider" "region" = inr (YStr "us-west-2") /\
  getitem2 Demo.west_config "provider" "zone" = inr (YStr "us-west-2a").
Proof.
  apply (@make_config_region_zone unit Demo.libraries Demo.installation
           Demo.aws_west_spec Demo.proxy_world Demo.proxy_world Demo.template
           Demo.west_config).
  - exists "cluster_name: default". split; [vm_compute|]; reflexivity.
  - vm_compute. reflexivity.
Defined.

Lemma make_config_proxy_command_witness :
  getitem2 Demo.west_config "auth" "ssh_proxy_command"
  = inr (YStr "nc -x localhost:1080 %h %p").
Proof.
  apply (@make_config_proxy_command unit Demo.libraries Demo.installation
           Demo.aws_west_spec Demo.proxy_world Demo.proxy_world Demo.template
           Demo.west_config).
  - exists "cluster_name: default". split; [vm_compute|]; reflexivity.
  - vm_compute. reflexivity.
Defined.

Lemma make_config_keeps_template_witness :
  getitem2 Demo.west_config "auth" "ssh_private_key"
  = inr (YStr "~/.ssh/modin.pem").
Proof.
  apply (proj2 (@make_config_keeps_template unit Demo.libraries
                  Demo.installation Demo.aws_west_spec Demo.proxy_world
                  Demo.proxy_world Demo.template Demo.west_config
                  ltac:(exists "cluster_name: default";
                        split; [vm_compute|]; reflexivity)
                  ltac:(vm_compute; reflexivity))
           "auth" "ssh_private_key" (YStr "~/.ssh/modin.pem")).
  - intros Hin. repeat (apply elem_of_cons in Hin as [Hin|Hin]; [discriminate|]).
    by apply elem_of_nil in Hin.
  - intros Hin. repeat (apply elem_of_cons in Hin as [Hin|Hin]; [discriminate|]).
    by apply elem_of_nil in Hin.
  - reflexivity.
  - reflexivity.
Defined.

Lemma make_config_without_provider_section_witness :
  @__make_config unit Demo.bare_libraries Demo.installation Demo.gcp_spec Demo.world
  = (inl (KeyError "provider"), Demo.world).
Proof.
  apply (@make_config_without_provider_section unit Demo.bare_libraries
           Demo.installation Demo.gcp_spec Demo.world
           [("cluster_name", YStr "default")]).
  - exists "cluster_name: default". split; [vm_compute|]; reflexivity.
  - reflexivity.
Defined.

(** *** __save_config, the world it leaves *)

Lemma substring_full (s : string) : String.substring 0 (String.length s) s = s.
Proof. induction s as [|a s IH]; simpl; [done|]. by rewrite IH. Qed.

Section PersistWorld.
Context {Cloud : Type}.
Context {libs : Libraries} {inst : Installation}.

(** What a successful [__save_config] changes. *)
Lemma save_config_world (cfg : yaml) (w w1 : World Cloud) (p : string) :
  __save_config cfg w = (inr p, w1) ->
  files w1 = <[p := yaml_dump cfg]> (files w) /\
  dirs w1 = match dirs w !! cfgdir with
            | Some _ => dirs w
            | None => <[cfgdir := 448]> (dirs w)
            end /\
  environ w1 = environ w /\ stderr w1 = stderr w /\ cloud w1 = cloud w /\
  gateway_calls w1 = gateway_calls w /\ threads_created w1 = threads_created w.
Proof.
  intros (w0 & Hmk & _ & Hwr)%save_config_inr.
  unfold os_makedirs in Hmk. unfold write_file in Hwr.
  destruct (files w !! cfgdir); [discriminate|].
  destruct (dirs w0 !! p); [discriminate|]. injection Hwr as <-.
  destruct (dirs w !! cfgdir); injection Hmk as <-; by repeat split.
Qed.

(** Whatever its outcome, [__save_config] leaves the environment, the error
    stream and the gateway log alone. *)
Lemma save_config_quiet (cfg : yaml) (w : World Cloud) :
  environ (snd (__save_config cfg w)) = environ w /\
  stderr (snd (__save_config cfg w)) = stderr w /\
  gateway_calls (snd (__save_config cfg w)) = gateway_calls w.
Proof.
  unfold __save_config, bind, os_makedirs, gets, write_file, ret.
  repeat case_match; simplify_eq/=; done.
Qed.

(** The candidate entries are not the config directory, so creating it does not
    change which of them exist. *)
Lemma makedirs_candidates (w w0 : World Cloud) (prefix : string) :
  os_makedirs cfgdir w = (inr tt, w0) ->
  os_path_exists (config_entry prefix) w0 = os_path_exists (config_entry prefix) w.
Proof.
  intros [_ Hex]%makedirs_exists. rewrite Hex.
  rewrite bool_decide_false by apply config_entry_not_cfgdir.
  by rewrite orb_false_r.
Qed.

(** The loop over [range(a, a + m)]: all entries taken, or the first free
    one. *)
Lemma find_entry_seq (w : World Cloud) (namehash : string) (a m : nat) :
  (find_entry w namehash (seq a m) = config_entry namehash /\
   forall s, (a <= s < a + m)%nat ->
     os_path_exists (config_entry (String.substring 0 s namehash)) w = true) \/
  (exists n, (a <= n < a + m)%nat /\
     find_entry w namehash (seq a m)
     = config_entry (String.substring 0 n namehash) /\
     os_path_exists (config_entry (String.substring 0 n namehash)) w = false /\
     forall s, (a <= s < n)%nat ->
       os_path_exists (config_entry (String.substring 0 s namehash)) w = true).
Proof.
  revert a. induction m as [|m IH]; intros a; simpl.
  - left. split; [done|]. intros s Hs. lia.
  - destruct (os_path_exists (config_entry (String.substring 0 a namehash)) w)
      eqn:E; simpl.
    + destruct (IH (S a)) as [[Hfull Hall]|(n & Hn & Hres & Hfree & Hall)].
      * left. split; [done|]. intros s Hs.
        destruct (decide (s = a)) as [->|]; [done|]. apply Hall. lia.
      * right. exists n. split; [lia|]. split; [done|]. split; [done|].
        intros s Hs. destruct (decide (s = a)) as [->|]; [done|].
        apply Hall. lia.
    + right. exists a. split; [lia|]. split; [done|]. split; [done|].
      intros s Hs. lia.
Qed.

(** X6: a successful [__save_config] writes exactly one file, the one it
    returns, holding [yaml.dump(config)], and changes no other file; the
    config directory is a directory afterwards and no directory is removed;
    the environment, the error stream and the provisioning tool are not
    touched. *)
Theorem save_config_writes_dump (cfg : yaml) (w w1 : World Cloud) (p : string) :
  __save_config cfg w = (inr p, w1) ->
  files w1 !! p = Some (yaml_dump cfg) /\
  (forall q, q <> p -> files w1 !! q = files w !! q) /\
  is_Some (dirs w1 !! cfgdir) /\
  (forall q, is_Some (dirs w !! q) -> is_Some (dirs w1 !! q)) /\
  environ w1 = environ w /\ stderr w1 = stderr w /\
  gateway_calls w1 = gateway_calls w.
Proof.
  intros (Hf & Hd & He & Hs & _ & Hg & _)%save_config_world.
  rewrite Hf, Hd. repeat split; try done.
  - by rewrite lookup_insert_eq.
  - intros q Hq. by rewrite lookup_insert_ne.
  - destruct (dirs w !! cfgdir) eqn:E; [by rewrite E|].
    rewrite lookup_insert_eq. eauto.
  - intros q Hq. destruct (dirs w !! cfgdir) eqn:E; [done|].
    destruct (decide (cfgdir = q)) as [<-|Hne].
    + rewrite lookup_insert_eq. eauto.
    + by rewrite lookup_insert_ne.
Qed.

(** X7: [__save_config] never overwrites a file under a shortened name:
    whatever its outcome, a file that existed before keeps its text unless
    its path is the full-hash entry of the document being saved. *)
Theorem save_config_keeps_other_files
    (cfg : yaml) (w : World Cloud) (q text : string) :
  files w !! q = Some text ->
  q <> config_entry (sha1_hexdigest (repr cfg)) ->
  files (snd (__save_config cfg w)) !! q = Some text.
Proof.
  intros Hq Hne.
  destruct (__save_config cfg w) as [[e|p] w1] eqn:E; simpl.
  - revert E. unfold __save_config, bind, os_makedirs, gets, write_file, ret.
    repeat case_match; simplify_eq/=; try done.
    all: intros; simplify_eq/=; done.
  - destruct (save_config_inr _ _ _ _ E) as (w0 & Hmk & Hp & _).
    destruct (save_config_world _ _ _ _ E) as (-> & _).
    assert (p <> q); [|by rewrite lookup_insert_ne].
    intros ->.
    destruct (find_entry_free w0 (sha1_hexdigest (repr cfg))
                (stops_of (sha1_hexdigest (repr cfg)))) as [Hfull|Hfree];
      rewrite <- Hp in *; [done|].
    destruct (makedirs_exists _ _ _ Hmk) as [Hfiles _].
    unfold os_path_exists in Hfree. rewrite Hfiles, Hq in Hfree.
    rewrite (bool_decide_true (is_Some (Some text))) in Hfree by eauto.
    done.
Qed.

(** X8: the path a successful [__save_config] returns is
    [<cfgdir>/config-<prefix>.yml] for the shortest prefix of the hash, of
    at least 4 characters, whose entry did not exist before the call; if
    every proper prefix of 4 or more characters was taken, it is the full
    hash. *)
Theorem save_config_shortest_free_prefix
    (cfg : yaml) (w w1 : World Cloud) (p : string) :
  __save_config cfg w = (inr p, w1) ->
  let namehash := sha1_hexdigest (repr cfg) in
  exists n,
    (n <= String.length namehash)%nat /\
    p = config_entry (String.substring 0 n namehash) /\
    ((n < String.length namehash)%nat ->
     (4 <= n)%nat /\ os_path_exists p w = false) /\
    (forall s, (4 <= s < n)%nat ->
       os_path_exists (config_entry (String.substring 0 s namehash)) w = true).
Proof.
  intros (w0 & Hmk & Hp & _)%save_config_inr namehash. fold namehash in Hp.
  unfold stops_of in Hp.
  destruct (find_entry_seq w0 namehash 4 (String.length namehash - 4))
    as [[Hfull Hall]|(n & Hn & Hres & Hfree & Hall)].
  - exists (String.length namehash). rewrite substring_full.
    split; [done|]. split; [congruence|]. split; [lia|].
    intros s Hs. rewrite <- (makedirs_candidates _ _ _ Hmk). apply Hall. lia.
  - exists n. split; [lia|]. split; [congruence|]. split.
    + intros _. split; [lia|]. rewrite Hp, Hres.
      by rewrite <- (makedirs_candidates _ _ _ Hmk).
    + intros s Hs. rewrite <- (makedirs_candidates _ _ _ Hmk). apply Hall. lia.
Qed.

End PersistWorld.

Lemma save_config_writes_dump_witness :
  files (snd (Demo.persist Demo.template Demo.world))
    !! "/home/modin/.modin/cloud/config-f87d.yml"
  = Some "cluster_name: modin-cluster".
Proof.
  apply (@save_config_writes_dump unit Demo.libraries Demo.installation
           Demo.template Demo.world
           (snd (Demo.persist Demo.template Demo.world))
           "/home/modin/.modin/cloud/config-f87d.yml").
  vm_compute. reflexivity.
Defined.

Lemma save_config_keeps_other_files_witness :
  files (snd (Demo.persist Demo.template
                (snd (Demo.persist Demo.template Demo.world))))
    !! "/home/modin/.modin/cloud/config-f87d.yml"
  = Some "cluster_name: modin-cluster".
Proof.
  apply (@save_config_keeps_other_files unit Demo.libraries Demo.installation
           Demo.template (snd (Demo.persist Demo.template Demo.world))
           "/home/modin/.modin/cloud/config-f87d.yml"
           "cluster_name: modin-cluster").
  - vm_compute. reflexivity.
  - vm_compute. discriminate.
Defined.

Lemma save_config_shortest_free_prefix_witness :
  exists n,
    (n <= 40)%nat /\
    "/home/modin/.modin/cloud/config-f87d.yml"
    = @config_entry Demo.installation
        (String.substring 0 n "f87d10f193d52e3274fda5fa4a5800d0455a6719") /\
    ((n < 40)%nat ->
     (4 <= n)%nat /\
     os_path_exists "/home/modin/.modin/cloud/config-f87d.yml" Demo.world
     = false) /\
    (forall s, (4 <= s < n)%nat ->
       os_path_exists
         (@config_entry Demo.installation
            (String.substring 0 s "f87d10f193d52e3274fda5fa4a5800d0455a6719"))
         Demo.world = true).
Proof.
  apply (@save_config_shortest_free_prefix unit Demo.libraries Demo.installation
           Demo.template Demo.world
           (snd (Demo.persist Demo.template Demo.world))
           "/home/modin/.modin/cloud/config-f87d.yml").
  vm_compute. reflexivity.
Defined.



(** *** The bodies and the connection details, in full *)

Ltac unfold_body :=
  unfold run_target, __spawn, __destroy, try_except, bind, self, gets, in_world,
    call_create_or_update, call_teardown, tool_call, modify_self, modify,
    lift, read_file, stderr_write, ret;
  simpl.

Ltac unfold_call :=
  unfold spawn, destroy, __run_thread, Thread_join, Thread_new, modify_task,
    modify_self, modify, self, gets, bind, raise, ret;
  simpl.

Ltac unfold_details :=
  unfold _get_connection_details, bind, self, gets, raise, lift, in_world,
    call_get_head_node_ip, ret;
  simpl.

Section Bodies.
Context {Cloud : Type}.
Context {libs : Libraries} {tool : Autoscaler Cloud}.

(** X12: [__spawn] makes the object ready only when the tool succeeded and
    the config file, as the tool left it, could be read and parsed; the
    parsed document then replaces [config].  A tool failure, a missing file
    or a parse error is captured in [spawn_exc], leaves [ready] and [config]
    as they were, and is reported once on the error stream unless the task
    is silent.  The files are in every case as the tool left them. *)
Theorem spawn_body_outcome (c : RayCluster) (w : World Cloud) :
  let c' := fst (snd (__spawn (c, w))) in
  let w' := snd (snd (__spawn (c, w))) in
  let failed (e : pyexc) :=
    ready c' = ready c /\ config c' = config c /\
    spawn_exc c' = Some (CannotSpawnCluster "Cannot spawn cluster" e) /\
    stderr w' = (if silent (spawner c) then stderr w
                 else (stderr w ++ [report "Cannot spawn cluster:" e])%list) in
  let '(res, files', _) :=
    create_or_update_cluster (config_file c) (files w) (cloud w) in
  files w' = files' /\
  match res with
  | Some e => failed e
  | None =>
      match files' !! config_file c with
      | None => failed (OSError "No such file or directory")
      | Some text =>
          match yaml_safe_load text with
          | inl e => failed e
          | inr cfg =>
              ready c' = true /\ config c' = cfg /\
              spawn_exc c' = spawn_exc c /\ stderr w' = stderr w
          end
      end
  end.
Proof.
  unfold report. unfold_body.
  destruct (create_or_update_cluster (config_file c) (files w) (cloud w))
    as [[[e|] f'] cl']; simpl.
  - by destruct (silent (spawner c)).
  - destruct (f' !! config_file c) as [text|]; simpl.
    + destruct (yaml_safe_load text) as [e|cfg]; simpl; [|done].
      by destruct (silent (spawner c)).
    + by destruct (silent (spawner c)).
Qed.

(** X13: [__destroy] clears the object ([ready] false, [config] [None])
    exactly when [teardown_cluster] succeeded; a failure is captured in
    [destroy_exc], leaves [ready] and [config] as they were, and is reported
    once on the error stream unless the task is silent. *)
Theorem destroy_body_outcome (c : RayCluster) (w : World Cloud) :
  let c' := fst (snd (__destroy (c, w))) in
  let w' := snd (snd (__destroy (c, w))) in
  let '(res, files', _) :=
    teardown_cluster (config_file c) (files w) (cloud w) in
  files w' = files' /\
  match res with
  | Some e =>
      ready c' = ready c /\ config c' = config c /\
      destroy_exc c' = Some (CannotDestroyCluster "Cannot destroy cluster" e) /\
      stderr w' = (if silent (destroyer c) then stderr w
                   else (stderr w ++ [report "Cannot destroy cluster:" e])%list)
  | None =>
      ready c' = false /\ config c' = YNone /\
      destroy_exc c' = destroy_exc c /\ stderr w' = stderr w
  end.
Proof.
  unfold report. unfold_body.
  destruct (teardown_cluster (config_file c) (files w) (cloud w))
    as [[[e|] f'] cl']; simpl; [|done].
  by destruct (silent (destroyer c)).
Qed.

(** Each body makes exactly one call to the provisioning tool, on the
    object's config file, and leaves directories, environment and thread
    count alone. *)
Lemma body_world (t : Target) (c : RayCluster) (w : World Cloud) :
  let w' := snd (snd (run_target t (c, w))) in
  gateway_calls w'
  = (gateway_calls w ++ [match t with
                         | target_spawn => CreateOrUpdate (config_file c)
                         | target_destroy => Teardown (config_file c)
                         end])%list /\
  dirs w' = dirs w /\ environ w' = environ w /\
  threads_created w' = threads_created w.
Proof.
  destruct t; unfold_body; repeat case_match; simplify_eq/=; done.
Qed.

(** A silent task's body writes nothing to the error stream. *)
Lemma silent_body_stderr (c : RayCluster) (w : World Cloud) :
  (silent (spawner c) = true ->
   stderr (snd (snd (__spawn (c, w)))) = stderr w) /\
  (silent (destroyer c) = true ->
   stderr (snd (snd (__destroy (c, w)))) = stderr w).
Proof.
  split; intros Hs; unfold_body.
  - destruct (create_or_update_cluster (config_file c) (files w) (cloud w))
      as [[[e|] f'] cl']; simpl; rewrite ?Hs; simpl; [done|].
    destruct (f' !! config_file c) as [text|]; simpl; rewrite ?Hs; simpl;
      [|done].
    destruct (yaml_safe_load text); simpl; rewrite ?Hs; done.
  - destruct (teardown_cluster (config_file c) (files w) (cloud w))
      as [[[e|] f'] cl']; simpl; rewrite ?Hs; done.
Qed.

(** X14: after a [__destroy] whose teardown succeeded, the connection
    details are refused with the [ready] assertion, and the provisioning
    tool is not asked for the head node. *)
Theorem destroy_then_details_refused (c : RayCluster) (w : World Cloud) :
  (teardown_cluster (config_file c) (files w) (cloud w)).1.1 = None ->
  _get_connection_details (snd (__destroy (c, w)))
  = (inl not_ready_error, snd (__destroy (c, w))).
Proof.
  intros Hok.
  assert (ready (fst (snd (__destroy (c, w)))) = false) as Hready.
  { revert Hok. unfold_body.
    destruct (teardown_cluster (config_file c) (files w) (cloud w))
      as [[[e|] f'] cl']; simpl; [discriminate|done]. }
  destruct (snd (__destroy (c, w))) as [c1 w1]. simpl in Hready.
  by apply connection_details_not_ready.
Qed.

(** X15: after a [__spawn] whose provisioning and reload succeeded, the
    connection details are the [auth.ssh_user] and [auth.ssh_private_key] of
    the reloaded config (the file as the tool left it, not the document
    built at construction), the address the tool reports for the config
    file, and port 22. *)
Theorem spawn_body_then_details
    (c : RayCluster) (w : World Cloud) files' cloud' text cfg user key addr :
  create_or_update_cluster (config_file c) (files w) (cloud w)
  = (None, files', cloud') ->
  files' !! config_file c = Some text ->
  yaml_safe_load text = inr cfg ->
  getitem2 cfg "auth" "ssh_user" = inr user ->
  getitem2 cfg "auth" "ssh_private_key" = inr key ->
  get_head_node_ip (config_file c) files' cloud' = inr addr ->
  fst (_get_connection_details (snd (__spawn (c, w))))
  = inr (mkConnectionDetails user key addr 22).
Proof.
  intros Htool Hfile Hload Huser Hkey Haddr.
  assert (snd (__spawn (c, w))
          = (set_ready true (set_config cfg c),
             mkWorld files' (dirs w) (environ w) (stderr w) cloud'
               (gateway_calls w ++ [CreateOrUpdate (config_file c)])
               (threads_created w))) as ->.
  { unfold_body. rewrite Htool. simpl. rewrite Hfile. simpl.
    by rewrite Hload. }
  by apply connection_details_ready.
Qed.

(** X16: on a ready object whose config has an [auth] mapping with
    [ssh_user] but no [ssh_private_key], the connection details raise
    [KeyError('ssh_private_key')]; the provisioning tool is not asked and
    nothing changes. *)
Theorem connection_details_without_key
    (c : RayCluster) (w : World Cloud) entries auth user :
  ready c = true ->
  config c = YDict entries ->
  dict_get entries "auth" = Some (YDict auth) ->
  dict_get auth "ssh_user" = Some user ->
  dict_get auth "ssh_private_key" = None ->
  _get_connection_details (c, w) = (inl (KeyError "ssh_private_key"), (c, w)).
Proof.
  intros Hready Hcfg Hauth Huser Hkey.
  destruct c as [sp ds rd spc cf path se de]. simpl in Hready, Hcfg. subst rd cf.
  unfold_details. unfold getitem2, getitem.
  by rewrite Hauth, Huser, Hkey.
Qed.

(** X17: [_get_connection_details] never changes the object, the files, the
    environment or the error stream.  It asks the provisioning tool at most
    once, for the head node of the object's config file, and only when the
    object is ready and both [auth] entries are there.  What it returns has
    port 22, the two [auth] entries of the config, and the address the tool
    gave. *)
Theorem connection_details_effects (c : RayCluster) (w : World Cloud) :
  let res := _get_connection_details (c, w) in
  let w' := snd (snd res) in
  fst (snd res) = c /\
  files w' = files w /\ dirs w' = dirs w /\ environ w' = environ w /\
  stderr w' = stderr w /\ cloud w' = cloud w /\
  gateway_calls w'
  = (if ready c
     then match getitem2 (config c) "auth" "ssh_user",
                getitem2 (config c) "auth" "ssh_private_key" with
          | inr _, inr _ => (gateway_calls w ++ [HeadNodeIp (config_file c)])%list
          | _, _ => gateway_calls w
          end
     else gateway_calls w) /\
  (forall d, fst res = inr d ->
     ready c = true /\ port d = 22 /\
     getitem2 (config c) "auth" "ssh_user" = inr (user_name d) /\
     getitem2 (config c) "auth" "ssh_private_key" = inr (key_file d) /\
     get_head_node_ip (config_file c) (files w) (cloud w) = inr (address d)).
Proof.
  unfold_details. destruct (ready c); simpl; [|by repeat split].
  destruct (getitem2 (config c) "auth" "ssh_user") as [e|user]; simpl;
    [by repeat split|].
  destruct (getitem2 (config c) "auth" "ssh_private_key") as [e|key]; simpl;
    [by repeat split|].
  destruct (get_head_node_ip (config_file c) (files w) (cloud w)) as [e|addr];
    simpl; repeat split; try done; by simplify_eq/=.
Qed.

End Bodies.

Lemma destroy_then_details_refused_witness :
  fst (@_get_connection_details unit Demo.healthy_tool
         (snd (@__destroy unit Demo.libraries Demo.healthy_tool
                 (set_ready true Demo.cluster, Demo.saved_world))))
  = inl not_ready_error.
Proof.
  rewrite (@destroy_then_details_refused unit Demo.libraries Demo.healthy_tool
             (set_ready true Demo.cluster) (Demo.saved_world)); reflexivity.
Defined.

Lemma spawn_body_then_details_witness :
  fst (@_get_connection_details unit Demo.healthy_tool
         (snd (@__spawn unit Demo.libraries Demo.healthy_tool
                 (Demo.cluster, Demo.saved_world))))
  = inr (mkConnectionDetails (YStr "ubuntu") (YStr "~/.ssh/modin.pem")
           "10.0.0.1" 22).
Proof.
  apply (@spawn_body_then_details unit Demo.libraries Demo.healthy_tool
           Demo.cluster (Demo.saved_world) (files (Demo.saved_world)) tt
           "cluster_name: modin-cluster" Demo.template).
  - reflexivity.
  - vm_compute. reflexivity.
  - reflexivity.
  - reflexivity.
  - reflexivity.
  - reflexivity.
Defined.

Lemma connection_details_without_key_witness :
  @_get_connection_details unit Demo.healthy_tool
    (set_ready true
       (set_config (YDict [("auth", YDict [("ssh_user", YStr "modin")])])
          Demo.cluster), Demo.world)
  = (inl (KeyError "ssh_private_key"),
     (set_ready true
        (set_config (YDict [("auth", YDict [("ssh_user", YStr "modin")])])
           Demo.cluster), Demo.world)).
Proof.
  apply (@connection_details_without_key unit Demo.healthy_tool _ Demo.world
           [("auth", YDict [("ssh_user", YStr "modin")])]
           [("ssh_user", YStr "modin")] (YStr "modin"));
    reflexivity.
Defined.

(** *** Threads and tasks over time *)

Section Tasks.
Context {Cloud : Type}.
Context {libs : Libraries} {tool : Autoscaler Cloud}.

Lemma tasks_kept_refl (c : RayCluster) (w : World Cloud) : tasks_kept c w c w.
Proof. repeat split; eauto. Qed.

Lemma tasks_kept_same (c : RayCluster) (w w' : World Cloud) :
  threads_created w' = threads_created w -> tasks_kept c w c w'.
Proof. intros H. unfold tasks_kept. rewrite H. repeat split; eauto. Qed.

Lemma tasks_kept_trans c1 (w1 : World Cloud) c2 w2 c3 w3 :
  tasks_kept c1 w1 c2 w2 -> tasks_kept c2 w2 c3 w3 -> tasks_kept c1 w1 c3 w3.
Proof.
  intros (Hn & Ht & Hs) (Hn' & Ht' & Hs'). repeat split.
  - lia.
  - intros r t H. destruct (Ht r t H) as (t1 & H1 & Hi & Htg).
    destruct (Ht' r t1 H1) as (t2 & H2 & Hi' & Htg').
    exists t2. repeat split; congruence.
  - intros r H. by apply Hs', Hs.
Qed.

Lemma body_keeps_tasks (t : Target) (c : RayCluster) (w : World Cloud) :
  tasks_kept c w (fst (snd (run_target t (c, w)))) (snd (snd (run_target t (c, w)))).
Proof.
  destruct (body_returns t (c, w)) as (_ & Hs & Hd & _).
  destruct (body_world t c w) as (_ & _ & _ & Hn).
  destruct (run_target t (c, w)) as [res [c1 w1]]. simpl in *.
  unfold tasks_kept, pending. rewrite Hs, Hd, Hn. repeat split.
  - intros [] t0 H; simpl in *; rewrite ?Hs, ?Hd; eauto.
  - intros [] H; simpl in *; by rewrite ?Hs, ?Hd.
Qed.

Lemma details_keep_tasks (c : RayCluster) (w : World Cloud) :
  tasks_kept c w (fst (snd (_get_connection_details (c, w))))
    (snd (snd (_get_connection_details (c, w)))).
Proof.
  unfold_details. repeat case_match; simplify_eq/=; by apply tasks_kept_same.
Qed.

Ltac finish_tasks :=
  unfold tasks_kept, pending in *; simpl in *;
  repeat split;
  first
    [ done
    | lia
    | intros [] ? ?; simpl in *; simplify_eq;
      eexists; (split; [reflexivity|done])
    | intros [] ?; simpl in *; by rewrite ?orb_true_r ].

Lemma run_thread_keeps_tasks (wait : bool) (r : TaskRef)
    (c : RayCluster) (w : World Cloud) :
  tasks_kept c w (fst (snd (__run_thread wait r (c, w))))
    (snd (snd (__run_thread wait r (c, w)))).
Proof.
  destruct c as [[tg1 th1 ex1 si1] [tg2 th2 ex2 si2] rd sp cf path se de].
  destruct r, wait.
  - destruct th1 as [[i tg [| |]]|]; unfold_call.
    2:{ match goal with |- context [run_target tg ?s] =>
          pose proof (body_keeps_tasks tg (fst s) (snd s)) as Hk;
          pose proof (body_returns tg s) as (Hr & Hs & Hd & _);
          simpl in Hk, Hr, Hs, Hd;
          destruct (run_target tg s) as [[e|[]] [c1 w1]] end;
          simpl in *; [discriminate|].
        destruct c1 as [k1 k2 ? ? ? ? ? ?]; simpl in *; subst k1 k2.
        destruct Hk as (Hn & _). destruct ex1, th2; finish_tasks. }
    all: destruct ex1, th2; finish_tasks.
  - destruct th2, th1 as [[i tg st]|]; unfold_call; finish_tasks.
  - destruct th2 as [[i tg [| |]]|]; unfold_call.
    2:{ match goal with |- context [run_target tg ?s] =>
          pose proof (body_keeps_tasks tg (fst s) (snd s)) as Hk;
          pose proof (body_returns tg s) as (Hr & Hs & Hd & _);
          simpl in Hk, Hr, Hs, Hd;
          destruct (run_target tg s) as [[e|[]] [c1 w1]] end;
          simpl in *; [discriminate|].
        destruct c1 as [k1 k2 ? ? ? ? ? ?]; simpl in *; subst k1 k2.
        destruct Hk as (Hn & _). destruct ex2, th1; finish_tasks. }
    all: destruct ex2, th1; finish_tasks.
  - destruct th1, th2 as [[i tg st]|]; unfold_call; finish_tasks.
Qed.

Lemma event_keeps_tasks (ev : Event) (c : RayCluster) (w : World Cloud) :
  tasks_kept c w (fst (snd (run_event ev (c, w)))) (snd (snd (run_event ev (c, w)))).
Proof.
  destruct ev as [[wait|wait|]|t]; simpl.
  - apply run_thread_keeps_tasks.
  - apply run_thread_keeps_tasks.
  - unfold bind. pose proof (details_keep_tasks c w) as Hk.
    by destruct (_get_connection_details (c, w)) as [[e|d] [c1 w1]].
  - apply body_keeps_tasks.
Qed.

Lemma events_keep_tasks (evs : list Event) (c : RayCluster) (w : World Cloud) :
  tasks_kept c w (fst (run_events evs (c, w))) (snd (run_events evs (c, w))).
Proof.
  revert c w. induction evs as [|ev rest IH]; intros c w; simpl.
  - apply tasks_kept_refl.
  - pose proof (event_keeps_tasks ev c w) as Hk.
    destruct (run_event ev (c, w)) as [res [c1 w1]]. simpl in *.
    eapply tasks_kept_trans; [exact Hk|apply IH].
Qed.

(** X18: whatever public calls are made and whenever the bodies run, a
    task's thread object, once made, stays the same object (same identity,
    same target); a thread is made only for a task that had none, so an
    object sees at most two threads made in its whole life. *)
Theorem threads_are_made_once
    (evs : list Event) (c : RayCluster) (w : World Cloud) :
  let s := run_events evs (c, w) in
  (forall r t, thread (get_task r c) = Some t ->
     exists t', thread (get_task r (fst s)) = Some t' /\
                ident t' = ident t /\ thread_target t' = thread_target t) /\
  (threads_created (snd s) + pending (fst s)
   = threads_created w + pending c)%nat /\
  (threads_created (snd s) <= threads_created w + 2)%nat.
Proof.
  intros s. destruct (events_keep_tasks evs c w) as (Hn & Ht & _).
  fold s in Hn, Ht. split; [done|]. split; [done|].
  assert (pending c <= 2)%nat
    by (unfold pending; destruct (thread (spawner c)), (thread (destroyer c));
        simpl; lia).
  lia.
Qed.

(** X19: [silent] is never cleared: once a call with [wait=True] has set it
    on a task, it stays set through every later call and body run, and the
    task's body then writes nothing to the error stream, also when the later
    call was made with [wait=False]. *)
Theorem silent_is_never_cleared
    (evs : list Event) (r : TaskRef) (c : RayCluster) (w : World Cloud) :
  silent (get_task r c) = true ->
  let s := run_events evs (c, w) in
  silent (get_task r (fst s)) = true /\
  stderr (snd (snd (run_target (body_of r) s))) = stderr (snd s).
Proof.
  intros Hsilent s. destruct (events_keep_tasks evs c w) as (_ & _ & Hs).
  fold s in Hs. specialize (Hs r Hsilent). split; [done|].
  destruct s as [c1 w1]. simpl in *.
  destruct (silent_body_stderr c1 w1) as [Hsp Hde].
  destruct r; simpl in *; [by apply Hsp|by apply Hde].
Qed.

(** X20: a call with [wait=False] is idempotent: made a second time it
    returns again and changes nothing. *)
Theorem nowait_call_idempotent (r : TaskRef) (c : RayCluster) (w : World Cloud) :
  let call := match r with
              | ref_spawner => spawn false
              | ref_destroyer => destroy false
              end in
  call (snd (call (c, w))) = (inr tt, snd (call (c, w))).
Proof.
  destruct c as [[tg1 th1 ex1 si1] [tg2 th2 ex2 si2] rd sp cf path se de].
  destruct r; [destruct th1|destruct th2]; unfold_call; done.
Qed.

End Tasks.

Lemma silent_is_never_cleared_witness :
  silent
    (spawner
       (fst (@run_events unit Demo.libraries Demo.broken_tool
               [Call (OpSpawn false); Run target_spawn; Call (OpDestroy true)]
               (set_spawner (set_silent true (spawner Demo.cluster)) Demo.cluster,
                Demo.world))))
  = true.
Proof.
  apply (@silent_is_never_cleared unit Demo.libraries Demo.broken_tool
           [Call (OpSpawn false); Run target_spawn; Call (OpDestroy true)]
           ref_spawner
           (set_spawner (set_silent true (spawner Demo.cluster)) Demo.cluster)
           Demo.world).
  reflexivity.
Defined.
